(** * PGlite HTTP server: a shallow embedding of [src/index.ts]

    The server is a thin HTTP/JSON facade over one embedded PostgreSQL
    session.  The embedded engine, the HTTP framework and the schema
    validator are external packages: the engine is a parameter of the
    model (two state transformers, [db_query] and [db_exec]); the framework
    and the validator are modelled by the behaviour the handlers rely on.

    Every handler runs in a small monad that threads the session, records
    each call made on the session, and carries JavaScript [throw] and
    [process.exit] as outcomes.  A handler is run from its first statement
    to its answer; an answer built from what the engine returned is
    serialised inside the handler's [try], where [res.json] can throw.
    How the calls of requests in flight at the same time interleave on
    the shared session is left to the engine. *)

From Stdlib Require Import String Ascii List ZArith Bool Lia.
From Stdlib Require Import Permutation DecimalString.
Import ListNotations.

Local Open Scope string_scope.
Local Open Scope Z_scope.

Set Warnings "-register-all".

(* ------------------------------------------------------------------ *)
(** ** JavaScript values *)

(** The values that request bodies, bind parameters, result cells and
    response bodies are made of.  [VNum n] is the number that JavaScript
    prints as the integer [n], which it does for integer values of
    magnitude below 10^21; any other number (one with a fraction, one
    printed with an exponent, [NaN], an infinity) is a [VReal], given by
    the text JavaScript prints for it.  A [VBigInt] is what the engine
    returns for an eight-byte integer outside the safe range of numbers,
    a [VDate] what it returns for a timestamp, given by the text its
    [toString] prints.  An object is its list of own properties, with
    distinct keys, in property order, the order of [Object.values]. *)
Inductive jsval : Type :=
| VUndef
| VNull
| VBool (b : bool)
| VNum (n : Z)
| VStr (s : string)
| VArr (items : list jsval)
| VObj (props : list (string * jsval))
| VBigInt (n : Z)
| VReal (shown : string)
| VDate (shown : string).

(** [o[k]] on a list of own properties: [undefined] when absent. *)
Fixpoint get_prop (k : string) (props : list (string * jsval)) : jsval :=
  match props with
  | [] => VUndef
  | (k', v) :: rest => if String.eqb k k' then v else get_prop k rest
  end.

Fixpoint has_prop (k : string) (props : list (string * jsval)) : bool :=
  match props with
  | [] => false
  | (k', _) :: rest => String.eqb k k' || has_prop k rest
  end.

(** [Object.values(o)]. *)
Definition object_values (props : list (string * jsval)) : list jsval :=
  map snd props.

(** JavaScript truthiness, as used by [if (name)]. *)
Definition truthy (v : jsval) : bool :=
  match v with
  | VUndef | VNull => false
  | VBool b => b
  | VNum n => negb (n =? 0)
  | VStr s => negb (String.eqb s EmptyString)
  | VArr _ | VObj _ => true
  | VBigInt n => negb (n =? 0)
  | VReal shown => negb (String.eqb shown "NaN")
  | VDate _ => true
  end.

(** An [Error] object as the handlers read it: [error.message] and
    [error.code] ([None] is [undefined]). *)
Record JsError : Type := mkError {
  message : string;
  code : option string
}.

Definition type_error : JsError :=
  mkError "Cannot convert object to primitive value" None.

(* ------------------------------------------------------------------ *)
(** ** Strings *)

Definition nl : string := String (ascii_of_nat 10) EmptyString.

(** The decimal digits of an integer, with a minus sign if negative:
    what JavaScript prints for a [BigInt] of that value, and for a
    number of that value below 10^21 in magnitude. *)
Definition number_to_string (n : Z) : string :=
  NilZero.string_of_int (Z.to_int n).

(** The numbers that [VNum] stands for. *)
Definition printed_in_full (n : Z) : bool :=
  Z.abs n <? 10 ^ 21.

(** [pieces.join(sep)] on pieces that are already strings. *)
Fixpoint join_strings (sep : string) (pieces : list string) : string :=
  match pieces with
  | [] => EmptyString
  | [p] => p
  | p :: rest => p ++ sep ++ join_strings sep rest
  end.

(** [s.replace(/'/g, "''")]. *)
Fixpoint double_quotes (s : string) : string :=
  match s with
  | EmptyString => EmptyString
  | String c rest =>
      if Ascii.eqb c "'"%char
      then String "'"%char (String "'"%char (double_quotes rest))
      else String c (double_quotes rest)
  end.

(** All-or-nothing traversal: the first error wins. *)
Fixpoint sequence_err {A : Type} (l : list (JsError + A)) : JsError + list A :=
  match l with
  | [] => inr []
  | inl e :: _ => inl e
  | inr a :: rest =>
      match sequence_err rest with
      | inl e => inl e
      | inr r => inr (a :: r)
      end
  end.

(** ECMAScript [ToString].  An array is its elements joined by a comma,
    [null] and [undefined] elements giving the empty text (the rule of
    [Array.prototype.join]).  A plain object is ["[object Object]"]; one
    that carries an own [toString] property (never callable in parsed
    data) makes the conversion throw a [TypeError]. *)
Fixpoint to_string (v : jsval) : JsError + string :=
  match v with
  | VUndef => inr "undefined"
  | VNull => inr "null"
  | VBool true => inr "true"
  | VBool false => inr "false"
  | VNum n => inr (number_to_string n)
  | VStr s => inr s
  | VArr items =>
      let piece (x : jsval) : JsError + string :=
        match x with
        | VUndef | VNull => inr EmptyString
        | _ => to_string x
        end in
      match sequence_err (map piece items) with
      | inl e => inl e
      | inr pieces => inr (join_strings "," pieces)
      end
  | VObj props =>
      if has_prop "toString" props then inl type_error
      else inr "[object Object]"
  | VBigInt n => inr (number_to_string n)
  | VReal shown | VDate shown => inr shown
  end.

(** The text one element contributes to [Array.prototype.join]. *)
Definition join_piece (v : jsval) : JsError + string :=
  match v with
  | VUndef | VNull => inr EmptyString
  | _ => to_string v
  end.

(** [items.join(sep)]. *)
Definition array_join (sep : string) (items : list jsval) : JsError + string :=
  match sequence_err (map join_piece items) with
  | inl e => inl e
  | inr pieces => inr (join_strings sep pieces)
  end.

(* ------------------------------------------------------------------ *)
(** ** Outcomes and the handler monad *)

(** What running a piece of the program ends in: a value, a thrown
    error, or [process.exit(status)]. *)
Inductive outcome (A : Type) : Type :=
| Ret (a : A)
| Throw (e : JsError)
| Exit (status : Z).

Arguments Ret {A} a.
Arguments Throw {A} e.
Arguments Exit {A} status.

Definition M (S A : Type) : Type := S -> outcome A * S.

Definition ret {S A : Type} (a : A) : M S A := fun s => (Ret a, s).

Definition throw {S A : Type} (e : JsError) : M S A := fun s => (Throw e, s).

Definition process_exit {S A : Type} (status : Z) : M S A :=
  fun s => (Exit status, s).

Definition bind {S A B : Type} (m : M S A) (k : A -> M S B) : M S B :=
  fun s =>
    match m s with
    | (Ret a, s') => k a s'
    | (Throw e, s') => (Throw e, s')
    | (Exit n, s') => (Exit n, s')
    end.

(** [try { m } catch (error) { handler error }]. *)
Definition try_catch {S A : Type} (m : M S A) (handler : JsError -> M S A)
  : M S A :=
  fun s =>
    match m s with
    | (Throw e, s') => handler e s'
    | other => other
    end.

(** A pure computation that may throw. *)
Definition lift_err {S A : Type} (r : JsError + A) : M S A :=
  match r with
  | inl e => throw e
  | inr a => ret a
  end.

Declare Scope js_scope.
Delimit Scope js_scope with js.
Notation "x <- m ;; k" := (bind m (fun x => k))
  (at level 61, m at next level, right associativity) : js_scope.
Notation "' pat <- m ;; k" := (bind m (fun x => match x with pat => k end))
  (at level 61, pat pattern, m at next level, right associativity) : js_scope.
Notation "m ;;; k" := (bind m (fun _ => k))
  (at level 61, right associativity) : js_scope.

(* ------------------------------------------------------------------ *)
(** ** The database session *)

(** A result row is an object keyed by column name. *)
Definition Row : Type := list (string * jsval).

Record Field : Type := mkField {
  field_name : string;
  dataTypeID : Z
}.

Record QueryResult : Type := mkResult {
  rows : list Row;
  fields : option (list Field)
}.

(** The embedded engine, as far as this program can observe it:
    [db.query(sql, params)] and [db.exec(sql)], each resolving or
    rejecting and moving the engine to a new state. *)
Record Engine : Type := mkEngine {
  DB : Type;
  db_query : string -> list jsval -> DB -> (JsError + QueryResult) * DB;
  db_exec : string -> DB -> (JsError + unit) * DB
}.

(** One call made on the session. *)
Inductive Call : Type :=
| CallQuery (sql : string) (params : list jsval)
| CallExec (sql : string).

(** The state a handler runs against: the shared session and the log of
    the calls made on it so far, oldest first. *)
Record World (E : Engine) : Type := mkWorld {
  session : DB E;
  calls : list Call
}.

Arguments session {E} _.
Arguments calls {E} _.

(** The five body schemas of the program. *)
Inductive Schema : Type :=
| QuerySchema | TransactionSchema | ImportSchema | UserCreateSchema
| UserUpdateSchema.

(** What the program takes from its host and its packages without
    defining it: the global [parseInt], the validator's e-mail test and
    the text of its error, the resolved data directory, the clock reading
    of [new Date().toISOString()], the [req.body] of a request whose body
    the JSON parser did not read, the page the framework sends for an
    error status no handler produced, and the global
    [decodeURIComponent] ([None] when it throws a [URIError]). *)
Record Host : Type := mkHost {
  parseInt : string -> jsval;
  is_email : string -> bool;
  zod_message : Schema -> jsval -> string;
  dataDir : string;
  now : string;
  unparsed_body : jsval;
  error_page : Z -> string;
  decodeURIComponent : string -> option string
}.

(** ** Responses *)

Inductive Content : Type :=
| JsonBody (v : jsval)
| TextBody (content_type : string) (text : string)
| NoBody.

Record Response : Type := mkResponse {
  status : Z;
  content : Content
}.

(** The response [res.status(n).json(v)] sends. *)
Definition json (n : Z) (props : list (string * jsval)) : Response :=
  mkResponse n (JsonBody (VObj props)).

(** Whether [JSON.stringify] accepts the value: it throws a [TypeError]
    on a [BigInt], wherever in the value it stands. *)
Fixpoint serializes (v : jsval) : bool :=
  match v with
  | VBigInt _ => false
  | VArr items => forallb serializes items
  | VObj props => forallb (fun p => serializes (snd p)) props
  | _ => true
  end.

Definition serialize_error : JsError :=
  mkError "Do not know how to serialize a BigInt" None.

(** [res.status(n).json(v)] as a step of a handler: the body is
    serialised on the spot, and a value that does not serialise makes the
    call throw before anything is sent. *)
Definition res_json {S : Type} (n : Z) (props : list (string * jsval))
  : M S Response :=
  if serializes (VObj props) then ret (json n props)
  else throw serialize_error.

(** A property of a JSON response body as the client sees it: properties
    whose value is [undefined] are not serialised. *)
Definition response_field (k : string) (r : Response) : option jsval :=
  match content r with
  | JsonBody (VObj props) =>
      match get_prop k props with
      | VUndef => None
      | v => Some v
      end
  | _ => None
  end.

Definition rows_value (rs : list Row) : jsval := VArr (map VObj rs).

(** [rows[0]]. *)
Definition first_row (rs : list Row) : jsval :=
  match rs with
  | [] => VUndef
  | r :: _ => VObj r
  end.

(** [rows.length]. *)
Definition row_count (rs : list Row) : jsval := VNum (Z.of_nat (length rs)).

Definition opt_string (o : option string) : jsval :=
  match o with
  | Some s => VStr s
  | None => VUndef
  end.

(* ------------------------------------------------------------------ *)
(** ** Statement texts

    The multi-line statements, character for character as the program
    sends them. *)

(** The conditional create-table statement of the bootstrap. *)
Definition sql_schema : string :=
"
    CREATE TABLE IF NOT EXISTS users (
      id SERIAL PRIMARY KEY,
      name TEXT NOT NULL,
      email TEXT UNIQUE NOT NULL,
      created_at TIMESTAMP DEFAULT CURRENT_TIMESTAMP
    );
  ".

(** The statement of [GET /tables]. *)
Definition sql_tables : string :=
"
      SELECT tablename 
      FROM pg_tables 
      WHERE schemaname = 'public'
      ORDER BY tablename;
    ".

(** The statement of [GET /tables/:tableName/schema]. *)
Definition sql_table_schema : string :=
"
      SELECT 
        column_name,
        data_type,
        is_nullable,
        column_default
      FROM information_schema.columns
      WHERE table_schema = 'public' 
        AND table_name = $1
      ORDER BY ordinal_position;
    ".

(** The table listing of [GET /export]. *)
Definition sql_export_tables : string :=
"
      SELECT tablename 
      FROM pg_tables 
      WHERE schemaname = 'public'
    ".

(** The statement with which [GET /export] has the engine build a
    [CREATE TABLE] text from the catalog. *)
Definition sql_export_create : string :=
"
        SELECT 
          'CREATE TABLE ' || $1 || ' (' ||
          string_agg(
            column_name || ' ' || data_type || 
            CASE WHEN is_nullable = 'NO' THEN ' NOT NULL' ELSE '' END,
            ', '
          ) || ');' as create_stmt
        FROM information_schema.columns
        WHERE table_name = $1
        GROUP BY table_name;
      ".

(** The per-table size statement of [GET /stats]. *)
Definition sql_stats_tables : string :=
"
      SELECT 
        schemaname,
        tablename,
        pg_size_pretty(pg_total_relation_size(schemaname||'.'||tablename)) AS size
      FROM pg_tables
      WHERE schemaname = 'public'
    ".

(** The database size statement of [GET /stats]. *)
Definition sql_stats_size : string :=
"
      SELECT pg_size_pretty(pg_database_size(current_database())) as size
    ".

(* ------------------------------------------------------------------ *)
(** ** Request validators

    Each validator is the schema's [parse] on the request body: [Some] of
    the parsed data, or [None] where [parse] throws.  An object schema
    takes any object, reads the keys it names and drops the others; an
    optional key may be absent. *)

Fixpoint sequence_opt {A : Type} (l : list (option A)) : option (list A) :=
  match l with
  | [] => Some []
  | None :: _ => None
  | Some a :: rest =>
      match sequence_opt rest with
      | None => None
      | Some r => Some (a :: r)
      end
  end.

Definition nonempty (s : string) : bool := negb (String.eqb s EmptyString).

(** [z.object({ query: z.string().min(1), params: z.array(z.any()).optional() })] *)
Definition querySchema (body : jsval) : option (string * jsval) :=
  match body with
  | VObj props =>
      match get_prop "query" props, get_prop "params" props with
      | VStr q, VUndef => if nonempty q then Some (q, VUndef) else None
      | VStr q, VArr ps => if nonempty q then Some (q, VArr ps) else None
      | _, _ => None
      end
  | _ => None
  end.

(** [z.object({ query: z.string(), params: z.array(z.any()).optional() })],
    the element schema of a transaction. *)
Definition transactionEntry (entry : jsval) : option (string * jsval) :=
  match entry with
  | VObj props =>
      match get_prop "query" props, get_prop "params" props with
      | VStr q, VUndef => Some (q, VUndef)
      | VStr q, VArr ps => Some (q, VArr ps)
      | _, _ => None
      end
  | _ => None
  end.

(** [z.object({ queries: z.array(<entry>) })] *)
Definition transactionSchema (body : jsval) : option (list (string * jsval)) :=
  match body with
  | VObj props =>
      match get_prop "queries" props with
      | VArr items => sequence_opt (map transactionEntry items)
      | _ => None
      end
  | _ => None
  end.

(** [z.object({ sql: z.string().min(1) })] *)
Definition importSchema (body : jsval) : option string :=
  match body with
  | VObj props =>
      match get_prop "sql" props with
      | VStr sql => if nonempty sql then Some sql else None
      | _ => None
      end
  | _ => None
  end.

(** The destructuring default [params = []]. *)
Definition params_or_empty (params : jsval) : list jsval :=
  match params with
  | VArr ps => ps
  | _ => []
  end.

(* ------------------------------------------------------------------ *)
(** ** Route handlers *)

Section Handlers.

Variable E : Engine.
Variable H : Host.

Local Open Scope js_scope.

(** [await db.query(sql, params)]: the call is logged, the session moves
    on, and a rejection is thrown.  A call written without a parameter
    list is made with the empty list. *)
Definition query (sql : string) (params : list jsval)
  : M (World E) QueryResult :=
  fun w =>
    let (r, db') := db_query E sql params (session w) in
    let w' := mkWorld E db' (calls w ++ [CallQuery sql params]) in
    match r with
    | inl e => (Throw e, w')
    | inr result => (Ret result, w')
    end.

(** [await db.exec(sql)]. *)
Definition exec (sql : string) : M (World E) unit :=
  fun w =>
    let (r, db') := db_exec E sql (session w) in
    let w' := mkWorld E db' (calls w ++ [CallExec sql]) in
    match r with
    | inl e => (Throw e, w')
    | inr tt => (Ret tt, w')
    end.

(** [schema.parse(req.body)]: the parsed data, or a thrown validation
    error, which has a message and no [code]. *)
Definition parse {A : Type} (schema : Schema) (validator : jsval -> option A)
  (body : jsval) : M (World E) A :=
  match validator body with
  | Some data => ret data
  | None => throw (mkError (zod_message H schema body) None)
  end.

(** [{ success: false, error: error.message }] *)
Definition failure (n : Z) (error : JsError) : Response :=
  json n [("success", VBool false); ("error", VStr (message error))].

(** [GET /health] *)
Definition health : M (World E) Response :=
  ret (json 200 [("status", VStr "healthy");
                 ("database", VStr "connected");
                 ("dataDir", VStr (dataDir H));
                 ("timestamp", VStr (now H))]).

Definition field_value (f : Field) : jsval :=
  VObj [("name", VStr (field_name f)); ("dataTypeID", VNum (dataTypeID f))].

(** [result.fields?.map(...)] *)
Definition fields_value (fs : option (list Field)) : jsval :=
  match fs with
  | Some l => VArr (map field_value l)
  | None => VUndef
  end.

(** [POST /query] *)
Definition post_query (body : jsval) : M (World E) Response :=
  try_catch
    ('(q, params) <- parse QuerySchema querySchema body ;;
     result <- query q (params_or_empty params) ;;
     res_json 200 [("success", VBool true);
                    ("rows", rows_value (rows result));
                    ("rowCount", row_count (rows result));
                    ("fields", fields_value (fields result))])
    (fun error =>
       ret (json 400 [("success", VBool false);
                      ("error", VStr (message error));
                      ("code", opt_string (code error))])).

(** The loop of [POST /transaction]: each entry is run in order and its
    rows are pushed onto [results]. *)
Fixpoint run_queries (queries : list (string * jsval)) (results : list jsval)
  : M (World E) (list jsval) :=
  match queries with
  | [] => ret results
  | (q, params) :: rest =>
      result <- query q (params_or_empty params) ;;
      run_queries rest
        (results ++ [VObj [("rows", rows_value (rows result));
                           ("rowCount", row_count (rows result))]])
  end.

(** [POST /transaction] *)
Definition post_transaction (body : jsval) : M (World E) Response :=
  try_catch
    (queries <- parse TransactionSchema transactionSchema body ;;
     exec "BEGIN" ;;;
     results <- run_queries queries [] ;;
     exec "COMMIT" ;;;
     res_json 200 [("success", VBool true); ("results", VArr results)])
    (fun error =>
       try_catch (exec "ROLLBACK") (fun _ => ret tt) ;;;
       ret (failure 400 error)).

(** [GET /tables] *)
Definition get_tables : M (World E) Response :=
  try_catch
    (result <- query sql_tables [] ;;
     res_json 200 [("success", VBool true);
                   ("tables", VArr (map (get_prop "tablename") (rows result)))])
    (fun error => ret (failure 500 error)).

(** [GET /tables/:tableName/schema] *)
Definition get_table_schema (tableName : string) : M (World E) Response :=
  try_catch
    (result <- query sql_table_schema [VStr tableName] ;;
     res_json 200 [("success", VBool true);
                   ("tableName", VStr tableName);
                   ("columns", rows_value (rows result))])
    (fun error => ret (failure 500 error)).

(** *** Export and import *)

(** The quoting of one cell: a string is wrapped in single quotes with
    each embedded single quote doubled, any other value is left as it is. *)
Definition sql_literal (v : jsval) : jsval :=
  match v with
  | VStr s => VStr ("'" ++ double_quotes s ++ "'")
  | _ => v
  end.

(** The line emitted for one row:
    [INSERT INTO ${tablename} VALUES (${values.join(', ')});\n]. *)
Definition insert_statement (tablename : jsval) (row : Row)
  : JsError + string :=
  let values := map sql_literal (object_values row) in
  match to_string tablename with
  | inl e => inl e
  | inr t =>
      match array_join ", " values with
      | inl e => inl e
      | inr joined =>
          inr ("INSERT INTO " ++ t ++ " VALUES (" ++ joined ++ ");" ++ nl)
      end
  end.

(** The inner loop of the export: one line per row, appended to [dump]. *)
Fixpoint export_rows (tablename : jsval) (rs : list Row) (dump : string)
  : JsError + string :=
  match rs with
  | [] => inr dump
  | row :: rest =>
      match insert_statement tablename row with
      | inl e => inl e
      | inr line => export_rows tablename rest (dump ++ line)
      end
  end.

(** [createResult.rows[0]?.create_stmt] *)
Definition create_stmt_of (rs : list Row) : jsval :=
  match rs with
  | [] => VUndef
  | r :: _ => get_prop "create_stmt" r
  end.

(** The body of the outer loop of the export, for one row of the table
    listing. *)
Definition export_table (table : Row) (dump : string) : M (World E) string :=
  let tablename := get_prop "tablename" table in
  createResult <- query sql_export_create [tablename] ;;
  create <- lift_err (to_string (create_stmt_of (rows createResult))) ;;
  let dump := dump ++ create ++ nl ++ nl in
  t <- lift_err (to_string tablename) ;;
  data <- query ("SELECT * FROM " ++ t) [] ;;
  match rows data with
  | [] => ret dump
  | _ :: _ =>
      dump <- lift_err (export_rows tablename (rows data) dump) ;;
      ret (dump ++ nl)
  end.

Fixpoint export_tables (tables : list Row) (dump : string)
  : M (World E) string :=
  match tables with
  | [] => ret dump
  | table :: rest =>
      dump <- export_table table dump ;;
      export_tables rest dump
  end.

Definition export_header : string :=
  "-- PGlite Database Export" ++ nl ++
  "-- Generated: " ++ now H ++ nl ++ nl.

(** [GET /export] *)
Definition get_export : M (World E) Response :=
  try_catch
    (tables <- query sql_export_tables [] ;;
     dump <- export_tables (rows tables) export_header ;;
     ret (mkResponse 200 (TextBody "application/sql" dump)))
    (fun error => ret (failure 500 error)).

(** [POST /import] *)
Definition post_import (body : jsval) : M (World E) Response :=
  try_catch
    (sql <- parse ImportSchema importSchema body ;;
     exec sql ;;;
     ret (json 200 [("success", VBool true);
                    ("message", VStr "SQL imported successfully")]))
    (fun error => ret (failure 400 error)).

(** [dbSize.rows[0]?.size] *)
Definition size_of (rs : list Row) : jsval :=
  match rs with
  | [] => VUndef
  | r :: _ => get_prop "size" r
  end.

(** [GET /stats] *)
Definition get_stats : M (World E) Response :=
  try_catch
    (tablesResult <- query sql_stats_tables [] ;;
     dbSize <- query sql_stats_size [] ;;
     res_json 200 [("success", VBool true);
                   ("database_size", size_of (rows dbSize));
                   ("tables", rows_value (rows tablesResult))])
    (fun error => ret (failure 500 error)).

(** *** The users table *)

(** [z.object({ name: z.string().min(1), email: z.string().email() })] *)
Definition userCreateSchema (body : jsval) : option (string * string) :=
  match body with
  | VObj props =>
      match get_prop "name" props, get_prop "email" props with
      | VStr name, VStr email =>
          if nonempty name && is_email H email then Some (name, email)
          else None
      | _, _ => None
      end
  | _ => None
  end.

(** [z.string().min(1).optional()] on one key: the string, or [undefined]. *)
Definition optional_name (v : jsval) : option jsval :=
  match v with
  | VUndef => Some VUndef
  | VStr s => if nonempty s then Some (VStr s) else None
  | _ => None
  end.

(** [z.string().email().optional()] *)
Definition optional_email (v : jsval) : option jsval :=
  match v with
  | VUndef => Some VUndef
  | VStr s => if is_email H s then Some (VStr s) else None
  | _ => None
  end.

(** [z.object({ name: <optional name>, email: <optional email> })] *)
Definition userUpdateSchema (body : jsval) : option (jsval * jsval) :=
  match body with
  | VObj props =>
      match optional_name (get_prop "name" props),
            optional_email (get_prop "email" props) with
      | Some name, Some email => Some (name, email)
      | _, _ => None
      end
  | _ => None
  end.

Definition not_found : Response :=
  json 404 [("success", VBool false); ("error", VStr "User not found")].

(** [GET /users] *)
Definition get_users : M (World E) Response :=
  try_catch
    (result <- query "SELECT * FROM users ORDER BY id" [] ;;
     res_json 200 [("success", VBool true);
                   ("users", rows_value (rows result))])
    (fun error => ret (failure 500 error)).

(** [POST /users] *)
Definition post_users (body : jsval) : M (World E) Response :=
  try_catch
    ('(name, email) <- parse UserCreateSchema userCreateSchema body ;;
     result <- query
       "INSERT INTO users (name, email) VALUES ($1, $2) RETURNING *"
       [VStr name; VStr email] ;;
     res_json 201 [("success", VBool true);
                   ("user", first_row (rows result))])
    (fun error => ret (failure 400 error)).

(** [GET /users/:id] *)
Definition get_user (id_param : string) : M (World E) Response :=
  try_catch
    (let id := parseInt H id_param in
     result <- query "SELECT * FROM users WHERE id = $1" [id] ;;
     match rows result with
     | [] => ret not_found
     | _ :: _ =>
         res_json 200 [("success", VBool true);
                       ("user", first_row (rows result))]
     end)
    (fun error => ret (failure 500 error)).

(** The accumulators of the update handler: the assignments, the bound
    values, and [paramCount]. *)
Record SetClause : Type := mkSet {
  updates : list string;
  values : list jsval;
  paramCount : Z
}.

(** [if (v) { updates.push(`<column> = $${paramCount++}`); values.push(v) }] *)
Definition push_if_present (column : string) (v : jsval) (acc : SetClause)
  : SetClause :=
  if truthy v then
    mkSet (updates acc ++ [column ++ " = $" ++ number_to_string (paramCount acc)])
          (values acc ++ [v])
          (paramCount acc + 1)
  else acc.

Definition build_set (name email : jsval) : SetClause :=
  push_if_present "email" email
    (push_if_present "name" name (mkSet [] [] 1)).

Definition update_sql (acc : SetClause) : string :=
  "UPDATE users SET " ++ join_strings ", " (updates acc) ++
  " WHERE id = $" ++ number_to_string (paramCount acc) ++ " RETURNING *".

(** [PUT /users/:id] *)
Definition put_user (id_param : string) (body : jsval) : M (World E) Response :=
  try_catch
    (let id := parseInt H id_param in
     '(name, email) <- parse UserUpdateSchema userUpdateSchema body ;;
     let acc := build_set name email in
     match updates acc with
     | [] =>
         ret (json 400 [("success", VBool false);
                        ("error", VStr "No fields to update")])
     | _ :: _ =>
         result <- query (update_sql acc) (values acc ++ [id]) ;;
         match rows result with
         | [] => ret not_found
         | _ :: _ =>
             res_json 200 [("success", VBool true);
                           ("user", first_row (rows result))]
         end
     end)
    (fun error => ret (failure 400 error)).

(** [DELETE /users/:id] *)
Definition delete_user (id_param : string) : M (World E) Response :=
  try_catch
    (let id := parseInt H id_param in
     result <- query "DELETE FROM users WHERE id = $1 RETURNING *" [id] ;;
     match rows result with
     | [] => ret not_found
     | _ :: _ =>
         res_json 200 [("success", VBool true);
                       ("message", VStr "User deleted");
                       ("user", first_row (rows result))]
     end)
    (fun error => ret (failure 500 error)).

End Handlers.

(* ------------------------------------------------------------------ *)
(** ** The application: middleware, then routes *)

(** The charset parameter of a JSON [Content-Type], as the body parser
    tells them apart: none or a UTF one it can decode, one whose name
    begins with [utf-] that it has no decoder for, any other. *)
Inductive Charset : Type :=
| Utf
| UtfUnknown
| NotUtf.

(** A request body that is announced as JSON.  [encoding_known] says
    that the [Content-Encoding] is absent, [identity] or one the parser
    inflates; [content_length] is the [Content-Length] header where the
    parser goes by it, that is, for a body sent as it is and not in
    chunks; [byte_length] is the number of bytes the parser reads, after
    inflating; [parsed] is what parsing them gives ([None] for a syntax
    error). *)
Record JsonPayload : Type := mkPayload {
  charset : Charset;
  encoding_known : bool;
  content_length : option Z;
  byte_length : Z;
  parsed : option jsval
}.

(** A request as Node hands it to the application: the method, in upper
    case; the path split at its slashes, without the query string and
    the leading slash ([/users/7/] is [users], [7] and the empty text);
    and the JSON body if the request carries one. *)
Record Request : Type := mkRequest {
  method : string;
  path : list string;
  payload : option JsonPayload
}.

(** [limit: '10mb'], in bytes. *)
Definition json_limit : Z := 10 * 1024 * 1024.

(** ASCII lower case: the route patterns are matched without regard to
    case. *)
Definition lower_ascii (c : ascii) : ascii :=
  let n := nat_of_ascii c in
  if (65 <=? n)%nat && (n <=? 90)%nat then ascii_of_nat (n + 32) else c.

Fixpoint lower (s : string) : string :=
  match s with
  | EmptyString => EmptyString
  | String c rest => String (lower_ascii c) (lower rest)
  end.

(** The segments a route pattern is matched against: routing is not
    strict, so one slash at the end of the path is optional. *)
Definition route_segments (p : list string) : list string :=
  match rev p with
  | EmptyString :: before => rev before
  | _ => p
  end.

Section App.

Variable E : Engine.
Variable H : Host.

Local Open Scope js_scope.

(** [cors()] with its default options: a preflight request is answered
    here with 204 and goes no further; any other request is passed on. *)
Definition cors (req : Request) : option Response :=
  if String.eqb (method req) "OPTIONS"
  then Some (mkResponse 204 NoBody)
  else None.

Definition framework_error (n : Z) : Response :=
  mkResponse n (TextBody "text/html" (error_page H n)).

Definition over_limit (n : option Z) : bool :=
  match n with
  | Some n => json_limit <? n
  | None => false
  end.

Definition length_differs (n : option Z) (read : Z) : bool :=
  match n with
  | Some n => negb (n =? read)
  | None => false
  end.

(** [express.json({ limit: '10mb' })] on a request with a JSON body, in
    the order the parser checks: a charset that is not a UTF one and an
    unknown content encoding are refused with 415 before the body is
    looked at; then a declared length above the limit with 413; then a
    charset without a decoder with 415; then the body is read, and
    refused with 413 once more than the limit has come in, with 400 when
    its length is not the declared one or it does not parse.  Otherwise
    [req.body] is the parsed value.  A request without a JSON body is
    passed on unread. *)
Definition express_json (req : Request) : Response + jsval :=
  match payload req with
  | None => inr (unparsed_body H)
  | Some p =>
      match charset p with
      | NotUtf => inl (framework_error 415)
      | known =>
          if negb (encoding_known p) then inl (framework_error 415)
          else if over_limit (content_length p) then inl (framework_error 413)
          else match known with
               | UtfUnknown => inl (framework_error 415)
               | _ =>
                   if json_limit <? byte_length p
                   then inl (framework_error 413)
                   else if length_differs (content_length p) (byte_length p)
                   then inl (framework_error 400)
                   else match parsed p with
                        | Some body => inr body
                        | None => inl (framework_error 400)
                        end
               end
      end
  end.

(** A route parameter: a segment that is not empty, decoded; a segment
    that does not decode is answered with the framework's 400, whatever
    the method. *)
Definition with_param (segment : string)
  (route : string -> M (World E) Response) : M (World E) Response :=
  if String.eqb segment EmptyString then ret (framework_error 404)
  else match decodeURIComponent H segment with
       | Some value => route value
       | None => ret (framework_error 400)
       end.

(** The route table, on the segments of the request path.  The handlers
    registered with [app.get] serve [HEAD] as well; the fixed segments are
    matched without regard to case; a request no route matches gets the
    framework's 404. *)
Definition dispatch (req : Request) (body : jsval) : M (World E) Response :=
  let m := method req in
  let get := String.eqb m "GET" || String.eqb m "HEAD" in
  let post := String.eqb m "POST" in
  match route_segments (path req) with
  | [a] =>
      let a := lower a in
      if get && String.eqb a "health" then health E H
      else if post && String.eqb a "query" then post_query E H body
      else if post && String.eqb a "transaction" then post_transaction E H body
      else if get && String.eqb a "tables" then get_tables E
      else if get && String.eqb a "export" then get_export E H
      else if post && String.eqb a "import" then post_import E H body
      else if get && String.eqb a "stats" then get_stats E
      else if get && String.eqb a "users" then get_users E
      else if post && String.eqb a "users" then post_users E H body
      else ret (framework_error 404)
  | [a; b] =>
      if String.eqb (lower a) "users" then
        with_param b (fun id =>
          if get then get_user E H id
          else if String.eqb m "PUT" then put_user E H id body
          else if String.eqb m "DELETE" then delete_user E H id
          else ret (framework_error 404))
      else ret (framework_error 404)
  | [a; b; c] =>
      if String.eqb (lower a) "tables" && String.eqb (lower c) "schema" then
        with_param b (fun tableName =>
          if get then get_table_schema E tableName
          else ret (framework_error 404))
      else ret (framework_error 404)
  | _ => ret (framework_error 404)
  end.

(** What goes out for a response: in answer to [HEAD] the status and the
    headers are sent, the body is not. *)
Definition on_the_wire (req : Request) (response : Response) : Response :=
  if String.eqb (method req) "HEAD"
  then mkResponse (status response) NoBody
  else response.

(** One request through the application: [cors()], then the JSON body
    parser, then the routes. *)
Definition app (req : Request) : M (World E) Response :=
  match cors req with
  | Some answer => ret answer
  | None =>
      match express_json req with
      | inl refusal => ret (on_the_wire req refusal)
      | inr body =>
          response <- dispatch req body ;;
          ret (on_the_wire req response)
      end
  end.

End App.

(* ------------------------------------------------------------------ *)
(** ** Startup *)

(** The file system, the engine constructor and the network, as far as
    startup uses them.  [PORT] is what [parseInt] reads from the
    environment; a text it reads no number from gives [NaN], which
    [listen] refuses like a number outside the port range, and which
    stands here as such a number.  [port_free] says whether the port can
    be bound on the given address. *)
Record Platform (E : Engine) : Type := mkPlatform {
  FS : Type;
  existsSync : string -> FS -> bool;
  writeFileSync : string -> string -> FS -> JsError + FS;
  rmSync : string -> FS -> JsError + FS;
  path_join : string -> string -> string;
  new_PGlite : string -> FS -> JsError + DB E;
  PORT : Z;
  port_free : Z -> string -> bool
}.

Arguments FS {E} _.
Arguments existsSync {E} _ _ _.
Arguments writeFileSync {E} _ _ _ _.
Arguments rmSync {E} _ _ _.
Arguments path_join {E} _ _ _.
Arguments new_PGlite {E} _ _ _.
Arguments PORT {E} _.
Arguments port_free {E} _ _ _.

(** What startup does to the outside, in order. *)
Inductive Effect : Type :=
| WriteFile (file : string)
| RemoveFile (file : string)
| OpenEngine (dir : string)
| ExecStartup (sql : string)
| Listen (port : Z) (host : string).

Record Process (E : Engine) (P : Platform E) : Type := mkProcess {
  files : FS P;
  db : option (DB E);
  listening : bool;
  effects : list Effect
}.

Arguments mkProcess {E} P _ _ _ _.
Arguments files {E P} _.
Arguments db {E P} _.
Arguments listening {E P} _.
Arguments effects {E P} _.

(** The ports [listen] accepts. *)
Definition valid_port (n : Z) : bool := (0 <=? n) && (n <? 65536).

Definition bad_port : JsError :=
  mkError "options.port should be >= 0 and < 65536"
          (Some "ERR_SOCKET_BAD_PORT").

Section Startup.

Variable E : Engine.
Variable P : Platform E.
Variable H : Host.

Local Open Scope js_scope.

Definition log_effect (x : Effect) (p : Process E P) : Process E P :=
  mkProcess P (files p) (db p) (listening p) (effects p ++ [x]).

(** [fs.writeFileSync(file, data)] *)
Definition fs_write (file data : string) : M (Process E P) unit :=
  fun p =>
    let p := log_effect (WriteFile file) p in
    match writeFileSync P file data (files p) with
    | inl e => (Throw e, p)
    | inr fs' => (Ret tt, mkProcess P fs' (db p) (listening p) (effects p))
    end.

(** [fs.rmSync(file)] *)
Definition fs_rm (file : string) : M (Process E P) unit :=
  fun p =>
    let p := log_effect (RemoveFile file) p in
    match rmSync P file (files p) with
    | inl e => (Throw e, p)
    | inr fs' => (Ret tt, mkProcess P fs' (db p) (listening p) (effects p))
    end.

(** [db = new PGlite(dataDir, ...)] *)
Definition open_engine : M (Process E P) unit :=
  fun p =>
    let p := log_effect (OpenEngine (dataDir H)) p in
    match new_PGlite P (dataDir H) (files p) with
    | inl e => (Throw e, p)
    | inr d => (Ret tt, mkProcess P (files p) (Some d) (listening p) (effects p))
    end.

(** [await db.exec(sql)] during startup. *)
Definition startup_exec (sql : string) : M (Process E P) unit :=
  fun p =>
    let p := log_effect (ExecStartup sql) p in
    match db p with
    | None => (Throw (mkError "Cannot read properties of undefined" None), p)
    | Some d =>
        let (r, d') := db_exec E sql d in
        let p' := mkProcess P (files p) (Some d') (listening p) (effects p) in
        match r with
        | inl e => (Throw e, p')
        | inr tt => (Ret tt, p')
        end
    end.

(** [app.listen(PORT, '0.0.0.0', ...)]: a port outside the range is
    refused on the spot, the call throws; otherwise the call returns, and
    the server listens if the port could be bound.  When it could not,
    the failure comes after the call has returned, and [startServer] has
    no part in what follows. *)
Definition listen : M (Process E P) unit :=
  fun p =>
    let p := log_effect (Listen (PORT P) "0.0.0.0") p in
    if valid_port (PORT P)
    then (Ret tt,
          mkProcess P (files p) (db p) (port_free P (PORT P) "0.0.0.0")
            (effects p))
    else (Throw bad_port, p).

(** The write-then-delete check on the data directory: the body of the
    first [try] of [initDB]. *)
Definition write_check : M (Process E P) unit :=
  let testFile := path_join P (dataDir H) ".write_test" in
  fs_write testFile "ok" ;;;
  fs_rm testFile.

Definition initDB : M (Process E P) unit :=
  try_catch write_check (fun fsErr => throw fsErr) ;;;
  try_catch open_engine (fun err => throw err) ;;;
  startup_exec sql_schema.

(** The removal of a stale lock file: a failure to remove is logged and
    startup goes on. *)
Definition remove_stale_lock : M (Process E P) unit :=
  fun p =>
    let lockFile := path_join P (dataDir H) "postmaster.pid" in
    if existsSync P lockFile (files p)
    then try_catch (fs_rm lockFile) (fun _ => ret tt) p
    else (Ret tt, p).

Definition startServer : M (Process E P) unit :=
  try_catch
    (remove_stale_lock ;;;
     try_catch initDB (fun dbError => process_exit 1) ;;;
     listen)
    (fun error => process_exit 1).

End Startup.

(* ------------------------------------------------------------------ *)
(** ** Stand-ins for the outside, for running the model on examples *)

Module Replay.

(** A session that replays prepared answers: each call, whatever its
    text, consumes the next answer; with none left the call is rejected. *)
Definition exhausted : JsError := mkError "no answer prepared" None.

Definition replay_query (sql : string) (params : list jsval)
  (script : list (JsError + QueryResult))
  : (JsError + QueryResult) * list (JsError + QueryResult) :=
  match script with
  | [] => (inl exhausted, [])
  | answer :: rest => (answer, rest)
  end.

Definition replay_exec (sql : string) (script : list (JsError + QueryResult))
  : (JsError + unit) * list (JsError + QueryResult) :=
  match script with
  | [] => (inl exhausted, [])
  | inl e :: rest => (inl e, rest)
  | inr _ :: rest => (inr tt, rest)
  end.

Definition engine : Engine :=
  mkEngine (list (JsError + QueryResult)) replay_query replay_exec.

(** A fresh request context on a session primed with [script]. *)
Definition world (script : list (JsError + QueryResult)) : World engine :=
  mkWorld engine script [].

Definition ok (rs : list Row) : JsError + QueryResult :=
  inr (mkResult rs None).

Definition rejected (msg : string) : JsError + QueryResult :=
  inl (mkError msg None).

(** A host whose [parseInt] reads one decimal digit, whose e-mail test
    asks for an at sign, and whose clock stands still. *)
Definition digit (s : string) : jsval :=
  match s with
  | String c EmptyString =>
      let n := Z.of_nat (nat_of_ascii c) - 48 in
      if (0 <=? n) && (n <=? 9) then VNum n else VUndef
  | _ => VUndef
  end.

Fixpoint has_at (s : string) : bool :=
  match s with
  | EmptyString => false
  | String c rest => Ascii.eqb c "@"%char || has_at rest
  end.

(** Decoding for texts without a percent sign, which decode to
    themselves; any other is refused. *)
Fixpoint has_percent (s : string) : bool :=
  match s with
  | EmptyString => false
  | String c rest => Ascii.eqb c "%"%char || has_percent rest
  end.

Definition plain_text (s : string) : option string :=
  if has_percent s then None else Some s.

Definition host : Host :=
  mkHost digit has_at (fun _ _ => "invalid input") "/app/data/pglite_db"
         "2025-01-15T10:00:00.000Z" (VObj []) (fun _ => EmptyString)
         plain_text.

(** A platform whose data directory cannot be written. *)
Definition denied : JsError := mkError "EACCES: permission denied" (Some "EACCES").

Definition read_only : Platform engine :=
  mkPlatform engine unit
    (fun _ _ => false)
    (fun _ _ _ => inl denied)
    (fun _ _ => inl denied)
    (fun dir file => dir ++ "/" ++ file)
    (fun _ _ => inr [])
    3000
    (fun _ _ => true).

Definition cold_start : Process engine read_only :=
  mkProcess read_only tt None false [].

End Replay.

(* ------------------------------------------------------------------ *)
(** ** Vocabulary of the properties *)

Section Vocabulary.

Local Open Scope list_scope.

(** What one entry of [queries] has to look like, and what it parses to. *)
Definition entry_shape (entry : jsval) (parsed_entry : string * jsval) : Prop :=
  exists props,
    entry = VObj props
    /\ get_prop "query" props = VStr (fst parsed_entry)
    /\ get_prop "params" props = snd parsed_entry
    /\ (snd parsed_entry = VUndef \/ exists ps, snd parsed_entry = VArr ps).

(** A field of the validated update input is supplied when the body
    carried it. *)
Definition supplied (v : jsval) : bool :=
  match v with
  | VUndef => false
  | _ => true
  end.

Definition text_or_absent (v : jsval) : Prop :=
  v = VUndef \/ exists s, v = VStr s /\ s <> EmptyString.

Definition supplied_fields (name email : jsval) : list (string * jsval) :=
  filter (fun f => supplied (snd f)) [("name", name); ("email", email)].

(** One assignment per field, with placeholders numbered from [n]. *)
Fixpoint assignments (n : Z) (fs : list (string * jsval)) : list string :=
  match fs with
  | [] => []
  | (column, _) :: rest =>
      (column ++ " = $" ++ number_to_string n)%string :: assignments (n + 1) rest
  end.

(** The three routes on [/users/:id]. *)
Inductive UserRequest : Type :=
| GetUser
| PutUser (body : jsval)
| DeleteUser.

Definition user_route (E : Engine) (H : Host) (id : string) (rq : UserRequest)
  : M (World E) Response :=
  match rq with
  | GetUser => get_user E H id
  | PutUser body => put_user E H id body
  | DeleteUser => delete_user E H id
  end.

(** The statement a request on [/users/:id] is to run and the values
    bound to it; an update whose body fails validation, or supplies no
    field, has none. *)
Definition user_statement (H : Host) (id : string) (rq : UserRequest)
  : option (string * list jsval) :=
  match rq with
  | GetUser =>
      Some ("SELECT * FROM users WHERE id = $1", [parseInt H id])
  | PutUser body =>
      match userUpdateSchema H body with
      | Some (name, email) =>
          let acc := build_set name email in
          match updates acc with
          | [] => None
          | _ :: _ => Some (update_sql acc, values acc ++ [parseInt H id])
          end
      | None => None
      end
  | DeleteUser =>
      Some ("DELETE FROM users WHERE id = $1 RETURNING *", [parseInt H id])
  end.

(** The status of the [catch] of each of the three handlers. *)
Definition user_error_status (rq : UserRequest) : Z :=
  match rq with
  | PutUser _ => 400
  | GetUser | DeleteUser => 500
  end.

(** The body each of the three handlers sends for the row it found. *)
Definition found_body (rq : UserRequest) (row : Row)
  : list (string * jsval) :=
  match rq with
  | GetUser | PutUser _ =>
      [("success", VBool true); ("user", VObj row)]
  | DeleteUser =>
      [("success", VBool true); ("message", VStr "User deleted");
       ("user", VObj row)]
  end.

(** The literal the export is meant to write for a cell: a string in
    single quotes with embedded single quotes doubled, any other value in
    its default textual form. *)
Definition literal_text (v : jsval) : JsError + string :=
  match v with
  | VStr s => inr ("'" ++ double_quotes s ++ "'")%string
  | _ => to_string v
  end.

Definition is_nullish (v : jsval) : bool :=
  match v with
  | VUndef | VNull => true
  | _ => false
  end.

(** What the export does write for a cell: the quoting, then the
    conversion that [join] applies to an element. *)
Definition written_text (v : jsval) : JsError + string :=
  join_piece (sql_literal v).

(** The line of a row whose cells are written as [texts]. *)
Definition insert_line (t : string) (texts : list string) : string :=
  ("INSERT INTO " ++ t ++ " VALUES (" ++ join_strings ", " texts ++ ");" ++ nl)%string.

Definition total_length (l : list string) : nat :=
  fold_right (fun s n => (String.length s + n)%nat) 0%nat l.


Definition is_write (x : Effect) : bool :=
  match x with
  | WriteFile _ => true
  | _ => false
  end.

(** Effects that belong to the steps after the write check: opening the
    engine, the bootstrap statement, binding the listener. *)
Definition after_check (x : Effect) : bool :=
  match x with
  | OpenEngine _ | ExecStartup _ | Listen _ _ => true
  | WriteFile _ | RemoveFile _ => false
  end.

(** The two-statement batch of the README, against a session on which the
    second statement is rejected and so is the [ROLLBACK]. *)
Definition sample_insert : string :=
  "INSERT INTO users (name, email) VALUES ($1, $2)".

Definition sample_update : string :=
  "UPDATE users SET name = $1 WHERE email = $2".

Definition sample_batch : jsval :=
  VObj [("queries",
         VArr [VObj [("query", VStr sample_insert);
                     ("params", VArr [VStr "Alice"; VStr "alice@example.com"])];
               VObj [("query", VStr sample_update);
                     ("params", VArr [VStr "Bob"; VStr "bob@example.com"])]])].

Definition sample_script : list (JsError + QueryResult) :=
  [Replay.ok []; Replay.ok [];
   Replay.rejected "deadlock detected";
   Replay.rejected "connection lost"].

(** The update of the README, [{"name": "Jane Doe"}] on user 1. *)
Definition sample_update_body : jsval := VObj [("name", VStr "Jane Doe")].

Definition oversized_import : Request :=
  mkRequest "POST" ["import"%string]
    (Some (mkPayload Utf true (Some (json_limit + 1)) (json_limit + 1)
             (Some (VObj [("sql", VStr "SELECT 1")])))).

End Vocabulary.

(* ------------------------------------------------------------------ *)
(** ** Vocabulary of the further properties *)

Section Coverage.

Local Open Scope list_scope.

(** The call the transaction loop makes for one entry. *)
Definition call_of (entry : string * jsval) : Call :=
  CallQuery (fst entry) (params_or_empty (snd entry)).

(** What the transaction loop pushes for a result with rows [rs]. *)
Definition result_entry (rs : list Row) : jsval :=
  VObj [("rows", rows_value rs); ("rowCount", row_count rs)].

(** What the engine answers when the statements of a batch are put to
    it in order, from the store [d] on: the results and the store after
    them, or nothing when one of the statements is rejected. *)
Fixpoint batch_answers (E : Engine) (queries : list (string * jsval))
  (d : DB E) : option (list QueryResult * DB E) :=
  match queries with
  | [] => Some ([], d)
  | (q, ps) :: rest =>
      match db_query E q (params_or_empty ps) d with
      | (inr r, d') =>
          match batch_answers E rest d' with
          | Some (rs, d'') => Some (r :: rs, d'')
          | None => None
          end
      | (inl _, _) => None
      end
  end.

(** A computation that always ends in a value: it neither throws nor
    exits. *)
Definition returns {S A : Type} (m : M S A) : Prop :=
  forall s, exists a s', m s = (Ret a, s').

(** A computation that never ends in [process.exit]. *)
Definition never_exits {S A : Type} (m : M S A) : Prop :=
  forall s n s', m s <> (Exit n, s').

(** Reading a quoted text back: each pair of single quotes stands for
    one. *)
Fixpoint undouble (s : string) : string :=
  match s with
  | EmptyString => EmptyString
  | String c rest =>
      if Ascii.eqb c "'"%char then
        match rest with
        | EmptyString => String c EmptyString
        | String c' rest' =>
            if Ascii.eqb c' "'"%char then String c (undouble rest')
            else String c (undouble rest)
        end
      else String c (undouble rest)
  end.

(** Every single quote of the text is one of a pair. *)
Fixpoint quotes_paired (s : string) : bool :=
  match s with
  | EmptyString => true
  | String c rest =>
      if Ascii.eqb c "'"%char then
        match rest with
        | EmptyString => false
        | String c' rest' => Ascii.eqb c' "'"%char && quotes_paired rest'
        end
      else quotes_paired rest
  end.

(** The values whose numbers are all among those [VNum] stands for. *)
Fixpoint representable (v : jsval) : bool :=
  match v with
  | VNum n => printed_in_full n
  | VArr items => forallb representable items
  | VObj props => forallb (fun p => representable (snd p)) props
  | _ => true
  end.

(** The answers of [GET /export]. *)
Definition sql_dump (dump : string) : Response :=
  mkResponse 200 (TextBody "application/sql" dump).

(** The file names startup uses. *)
Definition test_file {E : Engine} (P : Platform E) (H : Host) : string :=
  path_join P (dataDir H) ".write_test".

Definition lock_file {E : Engine} (P : Platform E) (H : Host) : string :=
  path_join P (dataDir H) "postmaster.pid".

Definition is_listen (x : Effect) : bool :=
  match x with
  | Listen _ _ => true
  | _ => false
  end.

(** The routes that take data from the request, the generic SQL routes
    apart: the table name of the schema route, the body of the
    create-user route, the id and the body of the single-user routes. *)
Inductive DataRoute : Type :=
| TableSchema (tableName : string)
| CreateUser (body : jsval)
| OneUser (id : string) (rq : UserRequest).

Definition data_route (E : Engine) (H : Host) (r : DataRoute)
  : M (World E) Response :=
  match r with
  | TableSchema tableName => get_table_schema E tableName
  | CreateUser body => post_users E H body
  | OneUser id rq => user_route E H id rq
  end.

(** The statement texts these routes can send. *)
Definition fixed_statements : list string :=
  [sql_table_schema;
   "INSERT INTO users (name, email) VALUES ($1, $2) RETURNING *";
   "SELECT * FROM users WHERE id = $1";
   "DELETE FROM users WHERE id = $1 RETURNING *";
   "UPDATE users SET name = $1 WHERE id = $2 RETURNING *";
   "UPDATE users SET email = $1 WHERE id = $2 RETURNING *";
   "UPDATE users SET name = $1, email = $2 WHERE id = $3 RETURNING *"]%string.

(** The statement each of these routes is to send, and the values bound
    to its placeholders: none for a body that fails validation or, on an
    update, supplies neither field. *)
Definition route_statement (H : Host) (r : DataRoute)
  : option (string * list jsval) :=
  match r with
  | TableSchema tableName => Some (sql_table_schema, [VStr tableName])
  | CreateUser body =>
      match userCreateSchema H body with
      | Some (name, email) =>
          Some ("INSERT INTO users (name, email) VALUES ($1, $2) RETURNING *",
                [VStr name; VStr email])
      | None => None
      end
  | OneUser id GetUser =>
      Some ("SELECT * FROM users WHERE id = $1", [parseInt H id])
  | OneUser id DeleteUser =>
      Some ("DELETE FROM users WHERE id = $1 RETURNING *", [parseInt H id])
  | OneUser id (PutUser body) =>
      match userUpdateSchema H body with
      | Some (name, email) =>
          match truthy name, truthy email with
          | true, true =>
              Some ("UPDATE users SET name = $1, email = $2 WHERE id = $3 RETURNING *",
                    [name; email; parseInt H id])
          | true, false =>
              Some ("UPDATE users SET name = $1 WHERE id = $2 RETURNING *",
                    [name; parseInt H id])
          | false, true =>
              Some ("UPDATE users SET email = $1 WHERE id = $2 RETURNING *",
                    [email; parseInt H id])
          | false, false => None
          end
      | None => None
      end
  end%string.

Definition issued_for (statement : option (string * list jsval))
  : list Call :=
  match statement with
  | Some (sql, params) => [CallQuery sql params]
  | None => []
  end.

End Coverage.

Module Disk.

(** A platform whose file system is the list of the files present:
    writing adds the file, removing one that is absent fails, and the
    engine opens on a session with one prepared answer. *)
Definition missing : JsError := mkError "ENOENT: no such file" (Some "ENOENT").

Definition present (file : string) (fs : list string) : bool :=
  existsb (String.eqb file) fs.

Definition writable : Platform Replay.engine :=
  mkPlatform Replay.engine (list string)
    present
    (fun file _ fs => inr (file :: fs))
    (fun file fs =>
       if present file fs
       then inr (filter (fun f => negb (String.eqb file f)) fs)
       else inl missing)
    (fun dir file => dir ++ "/" ++ file)
    (fun _ _ => inr [Replay.ok []])
    3000
    (fun _ _ => true).

(** A process about to start on a directory that holds a stale lock. *)
Definition stale_start : Process Replay.engine writable :=
  mkProcess writable ["/app/data/pglite_db/postmaster.pid"] None false [].

(** The same file system under an engine that fails to open. *)
Definition corrupt : JsError := mkError "could not open the data directory" None.

Definition no_engine : Platform Replay.engine :=
  mkPlatform Replay.engine (list string)
    present
    (fun file _ fs => inr (file :: fs))
    (fun file fs =>
       if present file fs
       then inr (filter (fun f => negb (String.eqb file f)) fs)
       else inl missing)
    (fun dir file => dir ++ "/" ++ file)
    (fun _ _ => inl corrupt)
    3000
    (fun _ _ => true).

Definition empty_start : Process Replay.engine no_engine :=
  mkProcess no_engine [] None false [].

End Disk.

(* ================================================================== *)
(** * Properties *)

Local Open Scope list_scope.
Local Open Scope js_scope.

(** ** The health route *)

(** C10. [GET /health] answers 200 with status "healthy" and database
    "connected" whatever state the session is in: the handler makes no
    call on the session, so the reported database status is a constant
    and not a probe. *)
Theorem health_is_constant :
  forall (E : Engine) (H : Host) (w : World E),
    health E H w =
      (Ret (json 200 [("status", VStr "healthy");
                      ("database", VStr "connected");
                      ("dataDir", VStr (dataDir H));
                      ("timestamp", VStr (now H))]), w)
    /\ (forall r w', health E H w = (r, w') ->
          calls w' = calls w /\ session w' = session w).
Proof.
  intros E H w; split; [reflexivity|].
  intros r w' Hrun; unfold health, ret in Hrun.
  inversion Hrun; subst; auto.
Qed.

(** ** The transaction route *)

(** The loop over a concatenation is the loop over the first part
    followed by the loop over the second, on the results so far. *)
Lemma run_queries_app :
  forall (E : Engine) (prefix rest : list (string * jsval)) (acc : list jsval)
         (w : World E),
    run_queries E (prefix ++ rest) acc w =
      (results <- run_queries E prefix acc ;; run_queries E rest results) w.
Proof.
  intros E prefix; induction prefix as [|[q ps] prefix IH]; intros rest acc w.
  - reflexivity.
  - rewrite <- app_comm_cons. simpl run_queries. unfold bind.
    destruct (query E q (params_or_empty ps) w) as [[result|e|n] w1];
      try reflexivity.
    rewrite IH. reflexivity.
Qed.

(** A completed run of the loop made exactly one query per entry. *)
Lemma run_queries_calls :
  forall (E : Engine) (queries : list (string * jsval)) (acc results : list jsval)
         (w w' : World E),
    run_queries E queries acc w = (Ret results, w') ->
    calls w' =
      calls w ++
      map (fun e => CallQuery (fst e) (params_or_empty (snd e))) queries
    /\ length results = (length acc + length queries)%nat.
Proof.
  intros E queries; induction queries as [|[q ps] queries IH];
    intros acc results w w' Hrun.
  - cbn in Hrun. inversion Hrun; subst. rewrite app_nil_r, Nat.add_0_r. auto.
  - cbn [run_queries] in Hrun. unfold bind, query in Hrun.
    destruct (db_query E q (params_or_empty ps) (session w)) as [[e|result] d];
      [discriminate|].
    apply IH in Hrun. cbn [calls] in Hrun. destruct Hrun as [Hc Hl].
    split.
    + rewrite Hc, <- app_assoc. reflexivity.
    + rewrite Hl, length_app. cbn. lia.
Qed.

(** A call that resolved is the last entry of the log. *)
Lemma exec_calls :
  forall (E : Engine) (sql : string) (w w' : World E),
    exec E sql w = (Ret tt, w') -> calls w' = calls w ++ [CallExec sql].
Proof.
  intros E sql w w'. unfold exec.
  destruct (db_exec E sql (session w)) as [[e|[]] d]; intros Hrun;
    inversion Hrun; reflexivity.
Qed.

(** C1. When a statement of the batch fails, after [BEGIN] and the
    statements before it succeeded, the handler issues [ROLLBACK] as its
    last call, answers 400 with the message of the error that statement
    raised, whatever the [ROLLBACK] itself resolves or rejects with, and
    the answer carries no [results]: what the earlier statements
    returned is dropped.  The session saw [BEGIN], the statements up to
    the failing one in order, and [ROLLBACK]; no [COMMIT]. *)
Theorem transaction_failure_rolls_back :
  forall (E : Engine) (H : Host) (body : jsval)
         (prefix suffix : list (string * jsval)) (q : string) (ps : jsval)
         (w w1 w2 : World E) (results : list jsval) (e : JsError) (d : DB E),
    transactionSchema body = Some (prefix ++ (q, ps) :: suffix) ->
    exec E "BEGIN" w = (Ret tt, w1) ->
    run_queries E prefix [] w1 = (Ret results, w2) ->
    db_query E q (params_or_empty ps) (session w2) = (inl e, d) ->
    let response :=
      json 400 [("success", VBool false); ("error", VStr (message e))] in
    post_transaction E H body w =
      (Ret response,
       mkWorld E (snd (db_exec E "ROLLBACK" d))
         (calls w2 ++
          [CallQuery q (params_or_empty ps); CallExec "ROLLBACK"]))
    /\ calls w2 =
         calls w ++ CallExec "BEGIN" ::
         map (fun e => CallQuery (fst e) (params_or_empty (snd e))) prefix
    /\ response_field "results" response = None
    /\ response_field "rows" response = None.
Proof.
  intros E H body prefix suffix q ps w w1 w2 results e d Hv Hb Hp Hq response.
  split; [|split; [|split; reflexivity]];
    [|apply run_queries_calls in Hp; destruct Hp as [Hp _]; rewrite Hp;
      rewrite (exec_calls E "BEGIN" w w1 Hb), <- app_assoc; reflexivity].
  unfold post_transaction, try_catch, parse. rewrite Hv.
  unfold bind at 1. unfold ret at 1.
  unfold bind at 1. rewrite Hb.
  unfold bind at 1. rewrite run_queries_app.
  unfold bind at 1. rewrite Hp.
  cbn [run_queries]. unfold bind at 1. unfold query at 1. rewrite Hq.
  unfold bind, exec; cbn [session calls].
  destruct (db_exec E "ROLLBACK" d) as [[e'|[]] d'];
    cbn; rewrite <- app_assoc; reflexivity.
Qed.

(** ** Validation failures *)

(** On the query, import and create-user routes a body that fails its
    schema is answered 400 and the session is not touched. *)
Lemma post_query_invalid :
  forall (E : Engine) (H : Host) (body : jsval) (w : World E),
    querySchema body = None ->
    post_query E H body w =
      (Ret (json 400 [("success", VBool false);
                      ("error", VStr (zod_message H QuerySchema body));
                      ("code", VUndef)]), w).
Proof.
  intros E H body w Hv. unfold post_query, try_catch, bind, parse.
  rewrite Hv. reflexivity.
Qed.

Lemma post_import_invalid :
  forall (E : Engine) (H : Host) (body : jsval) (w : World E),
    importSchema body = None ->
    post_import E H body w =
      (Ret (failure 400 (mkError (zod_message H ImportSchema body) None)), w).
Proof.
  intros E H body w Hv. unfold post_import, try_catch, bind, parse.
  rewrite Hv. reflexivity.
Qed.

Lemma post_users_invalid :
  forall (E : Engine) (H : Host) (body : jsval) (w : World E),
    userCreateSchema H body = None ->
    post_users E H body w =
      (Ret (failure 400 (mkError (zod_message H UserCreateSchema body) None)), w).
Proof.
  intros E H body w Hv. unfold post_users, try_catch, bind, parse.
  rewrite Hv. reflexivity.
Qed.

Lemma put_user_invalid :
  forall (E : Engine) (H : Host) (id : string) (body : jsval) (w : World E),
    userUpdateSchema H body = None ->
    put_user E H id body w =
      (Ret (failure 400 (mkError (zod_message H UserUpdateSchema body) None)), w).
Proof.
  intros E H id body w Hv. unfold put_user, try_catch, bind, parse.
  rewrite Hv. reflexivity.
Qed.

(** C2, on [POST /transaction].  The schema is parsed inside the [try]
    whose [catch] rolls back, so a body that fails the schema still
    reaches the session: the handler answers 400 with the validation
    message, and the session has received one call, [ROLLBACK], and is in
    the state that call left it in. *)
Theorem transaction_validation_failure_calls_session :
  forall (E : Engine) (H : Host) (body : jsval) (w : World E),
    transactionSchema body = None ->
    post_transaction E H body w =
      (Ret (json 400 [("success", VBool false);
                      ("error", VStr (zod_message H TransactionSchema body))]),
       mkWorld E (snd (db_exec E "ROLLBACK" (session w)))
         (calls w ++ [CallExec "ROLLBACK"])).
Proof.
  intros E H body w Hv. unfold post_transaction, try_catch, parse.
  rewrite Hv. unfold bind at 1. unfold throw at 1.
  unfold bind, exec.
  destruct (db_exec E "ROLLBACK" (session w)) as [[e|[]] d]; reflexivity.
Qed.

(** ** The transaction schema *)

Lemma transactionEntry_shape :
  forall entry parsed_entry,
    transactionEntry entry = Some parsed_entry <-> entry_shape entry parsed_entry.
Proof.
  intros entry [q ps]; unfold entry_shape; cbn [fst snd]; split.
  - destruct entry as [| |b|n|s|items|props|?|?|?]; try discriminate.
    cbn. intros Hp. exists props.
    destruct (get_prop "query" props) as [| |b|n|s|items|ps'|?|?|?] eqn:Hq;
      try discriminate.
    destruct (get_prop "params" props) as [| |b|n|s'|items|ps'|?|?|?] eqn:Hps;
      try discriminate; inversion Hp; subst; repeat split; eauto.
  - intros [props [-> [Hq [Hps Hshape]]]]. cbn. rewrite Hq, Hps.
    destruct Hshape as [->|[l ->]]; reflexivity.
Qed.

Lemma sequence_opt_Forall2 :
  forall (items : list jsval) (queries : list (string * jsval)),
    sequence_opt (map transactionEntry items) = Some queries <->
    Forall2 entry_shape items queries.
Proof.
  induction items as [|item items IH]; intros queries; cbn.
  - split.
    + intros Hs; inversion Hs; constructor.
    + intros Hf; inversion Hf; reflexivity.
  - split.
    + destruct (transactionEntry item) as [p|] eqn:Hi; [|discriminate].
      destruct (sequence_opt (map transactionEntry items)) as [r|] eqn:Hr;
        [|discriminate].
      intros Hs; inversion Hs; subst. constructor.
      * apply transactionEntry_shape; assumption.
      * apply IH; reflexivity.
    + intros Hf; inversion Hf as [|x p l r Hx Hl]; subst.
      apply transactionEntry_shape in Hx. rewrite Hx.
      apply IH in Hl. rewrite Hl. reflexivity.
Qed.

(** C3, as the code has it.  The validator of [POST /transaction]
    accepts a body exactly when it is an object whose [queries] is a
    list, of any length, of objects with a string [query] and a [params]
    that is absent or a list; the entries are kept in order.  No minimum
    length is asked for, neither of the list nor of a [query] text. *)
Theorem transactionSchema_accepts :
  forall (body : jsval) (queries : list (string * jsval)),
    transactionSchema body = Some queries <->
    exists props items,
      body = VObj props
      /\ get_prop "queries" props = VArr items
      /\ Forall2 entry_shape items queries.
Proof.
  intros body queries; split.
  - destruct body as [| |b|n|s|items|props|?|?|?]; try discriminate.
    cbn. destruct (get_prop "queries" props) as [| |b|n|s|items|ps|?|?|?] eqn:Hq;
      try discriminate.
    intros Hs. exists props, items. repeat split; auto.
    apply sequence_opt_Forall2; assumption.
  - intros [props [items [-> [Hq Hf]]]]. cbn. rewrite Hq.
    apply sequence_opt_Forall2; assumption.
Qed.

(** C3, as stated, fails: the body [{"queries": []}] is accepted, and the
    handler then answers 200 with an empty [results] after a [BEGIN] and
    a [COMMIT]. *)
Lemma empty_batch_is_accepted :
  transactionSchema (VObj [("queries", VArr [])]) = Some []
  /\ ~ (forall body props,
          body = VObj props ->
          get_prop "queries" props = VArr [] ->
          transactionSchema body = None)
  /\ post_transaction Replay.engine Replay.host (VObj [("queries", VArr [])])
       (Replay.world [Replay.ok []; Replay.ok []]) =
     (Ret (json 200 [("success", VBool true); ("results", VArr [])]),
      mkWorld Replay.engine [] [CallExec "BEGIN"; CallExec "COMMIT"]).
Proof.
  split; [reflexivity|split; [|reflexivity]].
  intros Hall.
  specialize (Hall (VObj [("queries", VArr [])]) [("queries", VArr [])]
                   eq_refl eq_refl).
  discriminate Hall.
Qed.

(** ** The single-user routes *)

(** A validated field is absent or a non-empty text. *)
Lemma optional_name_cases :
  forall v name,
    optional_name v = Some name -> text_or_absent name.
Proof.
  intros v name; destruct v as [| |b|n|s|items|props|?|?|?]; cbn; try discriminate.
  - intros Hs; inversion Hs; left; reflexivity.
  - unfold nonempty. destruct (String.eqb_spec s EmptyString) as [->|Hne]; cbn;
      [discriminate|].
    intros Hs; inversion Hs; subst. right; exists s; auto.
Qed.

Lemma optional_email_cases :
  forall (H : Host) v email,
    is_email H EmptyString = false ->
    optional_email H v = Some email -> text_or_absent email.
Proof.
  intros H v email Hempty; destruct v as [| |b|n|s|items|props|?|?|?]; cbn;
    try discriminate.
  - intros Hs; inversion Hs; left; reflexivity.
  - destruct (is_email H s) eqn:He; [|discriminate].
    intros Hs; inversion Hs; subst. right; exists s; split; [reflexivity|].
    intros ->. congruence.
Qed.

Lemma userUpdateSchema_cases :
  forall (H : Host) body name email,
    is_email H EmptyString = false ->
    userUpdateSchema H body = Some (name, email) ->
    text_or_absent name /\ text_or_absent email.
Proof.
  intros H body name email Hempty.
  destruct body as [| |b|n|s|items|props|?|?|?]; cbn; try discriminate.
  destruct (optional_name (get_prop "name" props)) as [name'|] eqn:Hn;
    [|discriminate].
  destruct (optional_email H (get_prop "email" props)) as [email'|] eqn:He;
    [|discriminate].
  intros Hs; inversion Hs; subst.
  apply optional_name_cases in Hn. apply optional_email_cases in He; auto.
Qed.

(** On such a field the test [if (v)] of the handler is the test for
    presence. *)
Lemma truthy_supplied :
  forall v, text_or_absent v -> truthy v = supplied v.
Proof.
  intros v [->|[s [-> Hne]]]; [reflexivity|]. cbn.
  destruct (String.eqb_spec s EmptyString); [contradiction|reflexivity].
Qed.

Lemma supplied_fields_are_text :
  forall name email,
    text_or_absent name -> text_or_absent email ->
    Forall (fun f => exists s, snd f = VStr s /\ s <> EmptyString)
           (supplied_fields name email).
Proof.
  intros name email [->|[s [-> Hs]]] [->|[s' [-> Hs']]];
    unfold supplied_fields; cbn; repeat constructor; cbn; eauto.
Qed.

(** The accumulators hold one assignment and one bound value per
    supplied field. *)
Lemma build_set_supplied :
  forall name email,
    truthy name = supplied name ->
    truthy email = supplied email ->
    updates (build_set name email) = assignments 1 (supplied_fields name email)
    /\ values (build_set name email) = map snd (supplied_fields name email)
    /\ paramCount (build_set name email) =
         1 + Z.of_nat (length (supplied_fields name email)).
Proof.
  intros name email Hn He.
  unfold build_set, push_if_present, supplied_fields; cbn [filter snd].
  rewrite Hn, He.
  destruct (supplied name), (supplied email); cbn; auto.
Qed.

(** C5. [PUT /users/:id] on a body that passes its schema: the [SET]
    clause has one assignment for each supplied field and none for an
    omitted one, bound to the supplied values, each a non-empty text, so
    the [UPDATE] names no omitted column and assigns no [NULL]; with no
    field supplied the handler answers 400 without any call on the
    session, which is left as it was. *)
Theorem put_user_partial_update :
  forall (E : Engine) (H : Host) (id : string) (body name email : jsval)
         (w : World E),
    is_email H EmptyString = false ->
    userUpdateSchema H body = Some (name, email) ->
    let fs := supplied_fields name email in
    let acc := build_set name email in
    updates acc = assignments 1 fs
    /\ values acc = map snd fs
    /\ Forall (fun f => exists s, snd f = VStr s /\ s <> EmptyString) fs
    /\ (fs = [] ->
        put_user E H id body w =
          (Ret (json 400 [("success", VBool false);
                          ("error", VStr "No fields to update")]), w))
    /\ (fs <> [] ->
        let sql :=
          ("UPDATE users SET " ++ join_strings ", " (assignments 1 fs) ++
           " WHERE id = $" ++ number_to_string (1 + Z.of_nat (length fs)) ++
           " RETURNING *")%string in
        let params := map snd fs ++ [parseInt H id] in
        snd (put_user E H id body w) =
          mkWorld E (snd (db_query E sql params (session w)))
            (calls w ++ [CallQuery sql params])).
Proof.
  intros E H id body name email w Hempty Hv fs acc.
  destruct (userUpdateSchema_cases H body name email Hempty Hv) as [Hn He].
  destruct (build_set_supplied name email
              (truthy_supplied name Hn) (truthy_supplied email He)) as [Hu [Hvals Hc]].
  fold fs acc in Hu, Hvals, Hc.
  split; [exact Hu|]. split; [exact Hvals|].
  split; [exact (supplied_fields_are_text name email Hn He)|]. split.
  - intros Hnone. unfold put_user, try_catch, bind, parse. rewrite Hv.
    cbn [ret]. fold acc. rewrite Hu, Hnone. reflexivity.
  - intros Hsome sql params.
    assert (Hsql : update_sql acc = sql)
      by (unfold update_sql, sql; rewrite Hu, Hc; reflexivity).
    assert (Hps : values acc ++ [parseInt H id] = params)
      by (unfold params; rewrite Hvals; reflexivity).
    unfold put_user, try_catch, bind, parse. rewrite Hv. cbn [ret].
    fold acc. rewrite Hsql, Hps.
    destruct (updates acc) as [|a rest] eqn:Hupd.
    + exfalso. destruct fs as [|[c v] fs']; [congruence|discriminate Hu].
    + unfold query.
      destruct (db_query E sql params (session w)) as [[e|r] d];
        [reflexivity|].
      destruct (rows r); [reflexivity|].
      unfold res_json. destruct (serializes _); reflexivity.
Qed.

Lemma not_self_extended :
  forall (A : Type) (l : list A) (x : A), l <> l ++ [x].
Proof.
  intros A l x Heq. apply (f_equal (@length A)) in Heq.
  rewrite length_app in Heq. cbn in Heq. lia.
Qed.

Lemma last_call_inj :
  forall (l : list Call) (c c' : Call), l ++ [c] = l ++ [c'] -> c = c'.
Proof.
  intros l c c' Heq. apply app_inv_head in Heq. congruence.
Qed.

(** C6. On [GET], [PUT] and [DELETE /users/:id], a request that has a
    statement to run runs it once, with its bound values, and when the
    engine resolves it the handler answers; the answer is 404 exactly
    when the result has no row, it is then the fixed not-found body, and
    that body has no [user] field. *)
Theorem user_not_found_iff_no_row :
  forall (E : Engine) (H : Host) (id : string) (rq : UserRequest)
         (w : World E) (sql : string) (params : list jsval)
         (result : QueryResult) (d : DB E),
    user_statement H id rq = Some (sql, params) ->
    db_query E sql params (session w) = (inr result, d) ->
    exists response,
      user_route E H id rq w =
        (Ret response, mkWorld E d (calls w ++ [CallQuery sql params]))
      /\ (status response = 404 <-> rows result = [])
      /\ (status response = 404 ->
          response = not_found /\ response_field "user" response = None).
Proof.
  intros E H id rq w sql params result d Hstmt Hq.
  assert (Hanswer :
    forall (n : Z) (found : QueryResult -> list (string * jsval))
           (catch : JsError -> M (World E) Response),
      n <> 404 ->
      (forall e w1, exists m, catch e w1 = (Ret (failure m e), w1) /\ m <> 404) ->
      exists response,
        try_catch
          (r <- query E sql params ;;
           match rows r with
           | [] => ret not_found
           | _ :: _ => res_json n (found r)
           end) catch w =
          (Ret response, mkWorld E d (calls w ++ [CallQuery sql params]))
        /\ (status response = 404 <-> rows result = [])
        /\ (status response = 404 ->
            response = not_found /\ response_field "user" response = None)).
  { intros n found catch Hn Hcatch. unfold try_catch, bind, query. rewrite Hq.
    destruct (rows result) as [|row rs] eqn:Hrows.
    - exists not_found. cbn. repeat split; auto.
    - unfold res_json. destruct (serializes _).
      + eexists. split; [reflexivity|]. cbn [status json].
        repeat split; intros; try discriminate; contradiction.
      + cbn [throw].
        destruct (Hcatch serialize_error
                    (mkWorld E d (calls w ++ [CallQuery sql params])))
          as [m [Hm Hne]].
        rewrite Hm. eexists. split; [reflexivity|]. cbn [status failure json].
        repeat split; intros; try discriminate; contradiction. }
  destruct rq as [|body|]; cbn [user_route]; cbn [user_statement] in Hstmt.
  - inversion Hstmt; subst sql params. unfold get_user.
    apply (Hanswer 200 (fun r => [("success", VBool true);
                                  ("user", first_row (rows r))])); [lia|].
    intros e w1. exists 500. split; [reflexivity|lia].
  - unfold put_user.
    destruct (userUpdateSchema H body) as [[name email]|] eqn:Hv;
      [|discriminate].
    destruct (updates (build_set name email)) as [|u us] eqn:Hu;
      [discriminate|].
    inversion Hstmt; subst sql params.
    destruct (Hanswer 200 (fun r => [("success", VBool true);
                                     ("user", first_row (rows r))])
                (fun error => ret (failure 400 error)))
      as [response [Hrun Hrest]]; [lia| |].
    { intros e w1. exists 400. split; [reflexivity|lia]. }
    exists response. split; [|exact Hrest].
    rewrite <- Hrun. unfold try_catch, bind, parse. rewrite Hv. cbn [ret].
    rewrite Hu. reflexivity.
  - inversion Hstmt; subst sql params. unfold delete_user.
    apply (Hanswer 200 (fun r => [("success", VBool true);
                                  ("message", VStr "User deleted");
                                  ("user", first_row (rows r))])); [lia|].
    intros e w1. exists 500. split; [reflexivity|lia].
Qed.

(** ** The export *)

(** Joining quoted cells: when no cell is [null] or [undefined], each
    contributes its literal. *)
Lemma join_piece_literal :
  forall v, is_nullish v = false -> join_piece (sql_literal v) = literal_text v.
Proof.
  intros v Hv; destruct v; try discriminate; reflexivity.
Qed.

Lemma insert_statement_literals :
  forall (t : string) (row : Row),
    forallb (fun v => negb (is_nullish v)) (object_values row) = true ->
    insert_statement (VStr t) row =
      match sequence_err (map literal_text (object_values row)) with
      | inl e => inl e
      | inr texts =>
          inr ("INSERT INTO " ++ t ++ " VALUES (" ++ join_strings ", " texts
               ++ ");" ++ nl)%string
      end.
Proof.
  intros t row Hrow. unfold insert_statement, array_join; cbn [to_string].
  rewrite map_map.
  replace (map (fun x => join_piece (sql_literal x)) (object_values row))
    with (map literal_text (object_values row));
    [destruct (sequence_err (map literal_text (object_values row)));
     reflexivity|].
  induction (object_values row) as [|v vs IH]; [reflexivity|].
  cbn in Hrow. apply andb_prop in Hrow. destruct Hrow as [Hv Hvs].
  cbn [map]. rewrite IH by assumption.
  rewrite join_piece_literal; [reflexivity|].
  destruct (is_nullish v); [discriminate|reflexivity].
Qed.

Lemma append_empty_r : forall s : string, (s ++ EmptyString)%string = s.
Proof. induction s as [|c s IH]; cbn; congruence. Qed.

Lemma append_assoc :
  forall a b c : string, ((a ++ b) ++ c)%string = (a ++ b ++ c)%string.
Proof. induction a as [|x a IH]; intros b c; cbn; congruence. Qed.

(** The inner loop appends exactly one line per row, in row order. *)
Lemma export_rows_one_line_each :
  forall (t : jsval) (rs : list Row) (dump out : string),
    export_rows t rs dump = inr out ->
    exists lines,
      Forall2 (fun row line => insert_statement t row = inr line) rs lines
      /\ out = (dump ++ String.concat EmptyString lines)%string.
Proof.
  intros t rs; induction rs as [|row rs IH]; intros dump out Hrun.
  - cbn in Hrun. inversion Hrun; subst. exists []. split; [constructor|].
    cbn. rewrite append_empty_r. reflexivity.
  - cbn [export_rows] in Hrun.
    destruct (insert_statement t row) as [e|line] eqn:Hline; [discriminate|].
    apply IH in Hrun. destruct Hrun as [lines [Hall Hout]].
    exists (line :: lines). split; [constructor; assumption|].
    rewrite Hout. cbn [String.concat].
    destruct lines as [|l ls].
    + cbn. rewrite !append_empty_r. reflexivity.
    + rewrite append_assoc. reflexivity.
Qed.

Lemma length_append :
  forall a b : string,
    String.length (a ++ b)%string = (String.length a + String.length b)%nat.
Proof. induction a as [|x a IH]; intros b; cbn; [reflexivity|]. now rewrite IH. Qed.

Lemma join_strings_length :
  forall (sep : string) (l : list string),
    String.length (join_strings sep l) =
      (total_length l + String.length sep * pred (length l))%nat.
Proof.
  intros sep l; induction l as [|x l IH]; [cbn; lia|].
  destruct l as [|y l].
  - cbn. lia.
  - change (join_strings sep (x :: y :: l))
      with (x ++ sep ++ join_strings sep (y :: l))%string.
    rewrite !length_append, IH. cbn [total_length fold_right length pred]. lia.
Qed.

(** The line of a row is made of what is written for each of its cells. *)
Lemma insert_statement_written :
  forall (t : string) (row : Row),
    insert_statement (VStr t) row =
      match sequence_err (map written_text (object_values row)) with
      | inl e => inl e
      | inr pieces => inr (insert_line t pieces)
      end.
Proof.
  intros t row. unfold insert_statement, array_join; cbn [to_string].
  rewrite map_map. fold written_text.
  change (fun x : jsval => join_piece (sql_literal x)) with written_text.
  destruct (sequence_err (map written_text (object_values row))); reflexivity.
Qed.

(** Cell by cell, what is written is the literal, except that a [null]
    or [undefined] cell is written as nothing. *)
Lemma written_against_literal :
  forall (cells : list jsval) (texts : list string),
    sequence_err (map literal_text cells) = inr texts ->
    exists pieces,
      sequence_err (map written_text cells) = inr pieces
      /\ length pieces = length texts
      /\ (total_length pieces <= total_length texts)%nat
      /\ (existsb is_nullish cells = true ->
          (total_length pieces < total_length texts)%nat).
Proof.
  induction cells as [|v cells IH]; intros texts Hlit.
  - cbn in Hlit. inversion Hlit; subst. exists []. cbn.
    repeat split; auto. discriminate.
  - cbn [map sequence_err] in Hlit.
    destruct (literal_text v) as [e|text] eqn:Hv; [discriminate|].
    destruct (sequence_err (map literal_text cells)) as [e|rest] eqn:Hrest;
      [discriminate|].
    inversion Hlit; subst.
    destruct (IH rest eq_refl) as [pieces [Hw [Hlen [Hle Hlt]]]].
    cbn [map sequence_err existsb]. rewrite Hw.
    destruct (is_nullish v) eqn:Hn.
    + assert (Hwv : written_text v = inr EmptyString)
        by (destruct v; try discriminate; reflexivity).
      assert (Hpos : (0 < String.length text)%nat)
        by (destruct v; try discriminate; cbn in Hv; inversion Hv; cbn; lia).
      rewrite Hwv. exists (EmptyString :: pieces).
      unfold total_length in *. cbn [fold_right length String.length].
      split; [reflexivity|]. split; [lia|]. split; [lia|]. intros _; lia.
    + unfold written_text. rewrite join_piece_literal by assumption.
      rewrite Hv. exists (text :: pieces).
      unfold total_length in *. cbn [fold_right length].
      split; [reflexivity|]. split; [lia|]. split; [lia|].
      cbn [orb]. intros Hex. specialize (Hlt Hex). lia.
Qed.

(** C7, on every row that has a [NULL] cell.  Take a row with a [null]
    (or [undefined]) cell whose cells all have a literal, a string in
    single quotes with its quotes doubled and any other value in its
    default textual form.  The export does write one line for the row,
    but it is not the line made of these literals: the [null] cell is
    written as nothing. *)
Theorem null_cell_is_written_empty :
  forall (t : string) (row : Row) (texts : list string),
    existsb is_nullish (object_values row) = true ->
    sequence_err (map literal_text (object_values row)) = inr texts ->
    exists pieces,
      insert_statement (VStr t) row = inr (insert_line t pieces)
      /\ sequence_err (map written_text (object_values row)) = inr pieces
      /\ insert_line t pieces <> insert_line t texts.
Proof.
  intros t row texts Hnull Hlit.
  destruct (written_against_literal (object_values row) texts Hlit)
    as [pieces [Hw [Hlen [_ Hlt]]]].
  specialize (Hlt Hnull).
  exists pieces. split; [|split; [exact Hw|]].
  - rewrite insert_statement_written, Hw. reflexivity.
  - intros Heq. apply (f_equal String.length) in Heq.
    unfold insert_line in Heq.
    rewrite !length_append, !join_strings_length, Hlen in Heq. lia.
Qed.


(** ** Startup *)

(** Removing a stale lock never throws, opens nothing and writes
    nothing. *)
Lemma remove_stale_lock_returns :
  forall (E : Engine) (P : Platform E) (H : Host) (p : Process E P),
    exists p0 removed,
      remove_stale_lock E P H p = (Ret tt, p0)
      /\ effects p0 = effects p ++ removed
      /\ existsb after_check removed = false
      /\ existsb is_write removed = false
      /\ listening p0 = listening p
      /\ db p0 = db p.
Proof.
  intros E P H p. unfold remove_stale_lock.
  destruct (existsSync P _ (files p)).
  - unfold try_catch, fs_rm. cbn [log_effect files db listening effects].
    destruct (rmSync P _ (files p)) as [e|fs'];
      eexists; eexists; cbn; repeat split; reflexivity.
  - exists p, []. rewrite app_nil_r. repeat split; reflexivity.
Qed.

(** A failed write check made one write attempt, and nothing that comes
    after the check. *)
Lemma write_check_throws :
  forall (E : Engine) (P : Platform E) (H : Host) (p0 p1 : Process E P)
         (e : JsError),
    write_check E P H p0 = (Throw e, p1) ->
    exists attempted,
      effects p1 = effects p0 ++ attempted
      /\ existsb after_check attempted = false
      /\ length (filter is_write attempted) = 1%nat
      /\ listening p1 = listening p0
      /\ db p1 = db p0.
Proof.
  intros E P H p0 p1 e. unfold write_check, bind, fs_write, fs_rm.
  cbn [log_effect files db listening effects].
  destruct (writeFileSync P _ _ (files p0)) as [e1|fs1].
  - intros Hrun; inversion Hrun; subst. eexists; cbn; repeat split; reflexivity.
  - cbn [files db listening effects].
    destruct (rmSync P _ fs1) as [e2|fs2]; intros Hrun; inversion Hrun; subst.
    eexists; unfold log_effect; cbn [effects listening db files].
    rewrite <- app_assoc.
    repeat split; reflexivity.
Qed.

(** C8. When the write-then-delete check on the data directory fails,
    [startServer] ends in [process.exit(1)]: the check was attempted
    once, the engine was not opened, and the listener was not bound. *)
Theorem write_check_failure_is_fatal :
  forall (E : Engine) (P : Platform E) (H : Host) (p p1 : Process E P)
         (e : JsError),
    write_check E P H (snd (remove_stale_lock E P H p)) = (Throw e, p1) ->
    startServer E P H p = (Exit 1, p1)
    /\ listening p1 = listening p
    /\ db p1 = db p
    /\ exists done,
         effects p1 = effects p ++ done
         /\ existsb after_check done = false
         /\ length (filter is_write done) = 1%nat.
Proof.
  intros E P H p p1 e Hcheck.
  destruct (remove_stale_lock_returns E P H p)
    as [p0 [removed [Hlock [Heff0 [Hafter0 [Hwrite0 [Hl0 Hd0]]]]]]].
  rewrite Hlock in Hcheck; cbn [snd] in Hcheck.
  destruct (write_check_throws E P H p0 p1 e Hcheck)
    as [attempted [Heff1 [Hafter1 [Hwrite1 [Hl1 Hd1]]]]].
  split; [|split; [congruence|split; [congruence|]]].
  - unfold startServer, try_catch at 1. unfold bind at 1. rewrite Hlock.
    unfold bind at 1. unfold try_catch at 1. unfold initDB.
    unfold bind at 1. unfold try_catch at 1. rewrite Hcheck.
    reflexivity.
  - exists (removed ++ attempted). split; [|split].
    + rewrite Heff1, Heff0, app_assoc. reflexivity.
    + rewrite existsb_app, Hafter0, Hafter1. reflexivity.
    + rewrite filter_app, length_app, Hwrite1.
      assert (Hnone : filter is_write removed = []).
      { clear - Hwrite0. induction removed as [|x xs IH]; [reflexivity|].
        cbn in *. destruct (is_write x); [discriminate|]. auto. }
      rewrite Hnone. reflexivity.
Qed.

(** ** The body size limit *)

(** C9, as the code has it.  A request with a JSON body of more than
    10 * 1024 * 1024 bytes never reaches a route handler and causes no
    call on the session: a preflight ([OPTIONS]) request is answered 204
    by the CORS middleware, which runs first and does not read the body;
    every other request is refused by the JSON body parser, with 413, or
    with 415 when the parser gives up on the charset or the encoding
    before it measures the body. *)
Theorem oversized_body_reaches_no_handler :
  forall (E : Engine) (H : Host) (req : Request) (p : JsonPayload)
         (w : World E),
    payload req = Some p ->
    json_limit < byte_length p ->
    (method req = "OPTIONS"%string ->
       app E H req w = (Ret (mkResponse 204 NoBody), w))
    /\ (method req <> "OPTIONS"%string ->
        exists n,
          (n = 413 \/ n = 415)
          /\ express_json H req = inl (framework_error H n)
          /\ app E H req w =
               (Ret (on_the_wire req (framework_error H n)), w)).
Proof.
  intros E H req p w Hp Hlen.
  assert (Hjson : exists n, (n = 413 \/ n = 415)
                   /\ express_json H req = inl (framework_error H n)).
  { unfold express_json. rewrite Hp.
    apply Z.ltb_lt in Hlen. rewrite Hlen.
    destruct (charset p), (encoding_known p), (over_limit (content_length p));
      cbn; eauto. }
  unfold app, cors.
  destruct (String.eqb_spec (method req) "OPTIONS") as [Hm|Hm].
  - split; [reflexivity|]. intros Hne; contradiction.
  - split; [intros Heq; contradiction|]. intros _.
    destruct Hjson as [n [Hn Hj]]. exists n. rewrite Hj. auto.
Qed.

(** C9, as stated, fails on a preflight request: [OPTIONS /import] with
    a JSON body one byte over the limit is answered 204 by the CORS
    middleware and is not refused by the body parser, which never sees
    it. *)
Lemma oversized_preflight_not_refused :
  let req :=
    mkRequest "OPTIONS" ["import"%string]
      (Some (mkPayload Utf true (Some (json_limit + 1)) (json_limit + 1)
               None)) in
  (exists p, payload req = Some p /\ json_limit < byte_length p)
  /\ app Replay.engine Replay.host req (Replay.world []) =
       (Ret (mkResponse 204 NoBody), Replay.world [])
  /\ forall n, fst (app Replay.engine Replay.host req (Replay.world []))
               <> Ret (framework_error Replay.host n).
Proof.
  cbv zeta. split; [|split].
  - eexists; split; [reflexivity|]. cbn. unfold json_limit. lia.
  - reflexivity.
  - intros n. cbn. discriminate.
Qed.

(** ** The model on concrete requests *)

Lemma transaction_failure_rolls_back_witness :
  post_transaction Replay.engine Replay.host sample_batch
    (Replay.world sample_script) =
  (Ret (json 400 [("success", VBool false);
                  ("error", VStr "deadlock detected")]),
   mkWorld Replay.engine []
     [CallExec "BEGIN";
      CallQuery sample_insert [VStr "Alice"; VStr "alice@example.com"];
      CallQuery sample_update [VStr "Bob"; VStr "bob@example.com"];
      CallExec "ROLLBACK"]).
Proof.
  exact (proj1
    (transaction_failure_rolls_back Replay.engine Replay.host sample_batch
       [(sample_insert, VArr [VStr "Alice"; VStr "alice@example.com"])] []
       sample_update (VArr [VStr "Bob"; VStr "bob@example.com"])
       (Replay.world sample_script)
       (mkWorld Replay.engine (tl sample_script) [CallExec "BEGIN"])
       (mkWorld Replay.engine (tl (tl sample_script))
          [CallExec "BEGIN";
           CallQuery sample_insert [VStr "Alice"; VStr "alice@example.com"]])
       [VObj [("rows", VArr []); ("rowCount", VNum 0)]]
       (mkError "deadlock detected" None)
       [Replay.rejected "connection lost"]
       eq_refl eq_refl eq_refl eq_refl)).
Defined.

Lemma put_user_partial_update_witness :
  updates (build_set (VStr "Jane Doe") VUndef) = ["name = $1"%string]
  /\ snd (put_user Replay.engine Replay.host "1" sample_update_body
            (Replay.world [Replay.ok []])) =
     mkWorld Replay.engine []
       [CallQuery "UPDATE users SET name = $1 WHERE id = $2 RETURNING *"
          [VStr "Jane Doe"; VNum 1]].
Proof.
  destruct (put_user_partial_update Replay.engine Replay.host "1"
              sample_update_body (VStr "Jane Doe") VUndef
              (Replay.world [Replay.ok []]) eq_refl eq_refl)
    as [Hupdates [_ [_ [_ Hsent]]]].
  split; [exact Hupdates|].
  apply Hsent. discriminate.
Defined.

Lemma user_not_found_iff_no_row_witness :
  exists response,
    user_route Replay.engine Replay.host "7" DeleteUser
      (Replay.world [Replay.ok []]) =
      (Ret response,
       mkWorld Replay.engine []
         [CallQuery "DELETE FROM users WHERE id = $1 RETURNING *" [VNum 7]])
    /\ (status response = 404 <-> @nil Row = [])
    /\ (status response = 404 ->
        response = not_found /\ response_field "user" response = None).
Proof.
  exact (user_not_found_iff_no_row Replay.engine Replay.host "7" DeleteUser
           (Replay.world [Replay.ok []])
           "DELETE FROM users WHERE id = $1 RETURNING *" [VNum 7]
           (mkResult [] None) [] eq_refl eq_refl).
Defined.

Lemma write_check_failure_is_fatal_witness :
  startServer Replay.engine Replay.read_only Replay.host Replay.cold_start =
  (Exit 1,
   mkProcess Replay.read_only tt None false
     [WriteFile "/app/data/pglite_db/.write_test"]).
Proof.
  exact (proj1
    (write_check_failure_is_fatal Replay.engine Replay.read_only Replay.host
       Replay.cold_start
       (mkProcess Replay.read_only tt None false
          [WriteFile "/app/data/pglite_db/.write_test"])
       Replay.denied eq_refl)).
Defined.

Lemma oversized_body_reaches_no_handler_witness :
  exists n,
    (n = 413 \/ n = 415)
    /\ express_json Replay.host oversized_import =
         inl (framework_error Replay.host n)
    /\ app Replay.engine Replay.host oversized_import
         (Replay.world [Replay.ok []]) =
       (Ret (on_the_wire oversized_import (framework_error Replay.host n)),
        Replay.world [Replay.ok []]).
Proof.
  refine (proj2
    (oversized_body_reaches_no_handler Replay.engine Replay.host
       oversized_import
       (mkPayload Utf true (Some (json_limit + 1)) (json_limit + 1)
          (Some (VObj [("sql", VStr "SELECT 1")])))
       (Replay.world [Replay.ok []]) eq_refl _) _).
  - unfold json_limit; cbn; lia.
  - discriminate.
Defined.

(** The body [{}], which has no [queries], on a session with one
    prepared answer: the answer is consumed by the [ROLLBACK]. *)
Lemma transaction_validation_failure_calls_session_witness :
  transactionSchema (VObj []) = None
  /\ post_transaction Replay.engine Replay.host (VObj [])
       (Replay.world [Replay.ok []]) =
     (Ret (json 400 [("success", VBool false);
                     ("error", VStr "invalid input")]),
      mkWorld Replay.engine [] [CallExec "ROLLBACK"]).
Proof.
  split; [reflexivity|].
  exact (transaction_validation_failure_calls_session Replay.engine
           Replay.host (VObj []) (Replay.world [Replay.ok []]) eq_refl).
Defined.

(** The row [{id: 1, note: null}] of table [t]. *)
Lemma null_cell_is_written_empty_witness :
  insert_statement (VStr "t") [("id", VNum 1); ("note", VNull)] =
    inr ("INSERT INTO t VALUES (1, );" ++ nl)%string
  /\ insert_line "t" ["1"; "null"]%string =
       ("INSERT INTO t VALUES (1, null);" ++ nl)%string
  /\ exists pieces,
       insert_statement (VStr "t") [("id", VNum 1); ("note", VNull)] =
         inr (insert_line "t" pieces)
       /\ sequence_err
            (map written_text (object_values [("id", VNum 1); ("note", VNull)]))
          = inr pieces
       /\ insert_line "t" pieces <> insert_line "t" ["1"; "null"]%string.
Proof.
  split; [reflexivity|split; [reflexivity|]].
  exact (null_cell_is_written_empty "t" [("id", VNum 1); ("note", VNull)]
           ["1"; "null"]%string eq_refl eq_refl).
Defined.

(** A few evaluations of the model. *)
Example to_string_nested :
  to_string (VArr [VNum 1; VNull; VArr [VNum (-2); VStr "a"]])
  = inr "1,,-2,a"%string.
Proof. reflexivity. Qed.

Example insert_statement_quotes :
  insert_statement (VStr "users")
    [("id", VNum 1); ("name", VStr "O'Brien"); ("active", VBool true)]
  = inr ("INSERT INTO users VALUES (1, 'O''Brien', true);" ++ nl)%string.
Proof. reflexivity. Qed.

Example empty_update_is_refused :
  put_user Replay.engine Replay.host "1" (VObj []) (Replay.world []) =
  (Ret (json 400 [("success", VBool false);
                  ("error", VStr "No fields to update")]),
   Replay.world []).
Proof. reflexivity. Qed.

Example health_while_engine_is_down :
  fst (app Replay.engine Replay.host (mkRequest "GET" ["health"%string] None)
         (Replay.world [])) =
  Ret (json 200 [("status", VStr "healthy");
                 ("database", VStr "connected");
                 ("dataDir", VStr "/app/data/pglite_db");
                 ("timestamp", VStr "2025-01-15T10:00:00.000Z")]).
Proof. reflexivity. Qed.

(* ================================================================== *)
(** * Further properties *)

(** ** Transactions *)

(** Whatever the loop ends in, it is not an exit, and what it put on the
    log are the calls of the first entries of the batch, in order. *)
Lemma run_queries_log :
  forall (E : Engine) (queries : list (string * jsval)) (acc : list jsval)
         (w w' : World E) (o : outcome (list jsval)),
    run_queries E queries acc w = (o, w') ->
    (forall n, o <> Exit n)
    /\ exists k, calls w' = calls w ++ map call_of (firstn k queries).
Proof.
  intros E queries; induction queries as [|[q ps] queries IH];
    intros acc w w' o Hrun.
  - cbn in Hrun. inversion Hrun; subst. split; [discriminate|].
    exists 0%nat. cbn. now rewrite app_nil_r.
  - cbn [run_queries] in Hrun. unfold bind, query in Hrun.
    destruct (db_query E q (params_or_empty ps) (session w)) as [[e|r] d].
    + inversion Hrun; subst. split; [discriminate|].
      exists 1%nat. reflexivity.
    + apply IH in Hrun. destruct Hrun as [Hne [k Hk]]. split; [exact Hne|].
      exists (S k). cbn [calls] in Hk. rewrite Hk, <- app_assoc. reflexivity.
Qed.

(** A completed loop pushed one entry per statement, after what was
    there, each with the rows of its statement and their number. *)
Lemma run_queries_results :
  forall (E : Engine) (queries : list (string * jsval)) (acc results : list jsval)
         (w w' : World E),
    run_queries E queries acc w = (Ret results, w') ->
    exists answers : list (list Row),
      results = acc ++ map result_entry answers
      /\ length answers = length queries.
Proof.
  intros E queries; induction queries as [|[q ps] queries IH];
    intros acc results w w' Hrun.
  - cbn in Hrun. inversion Hrun; subst. exists []. cbn.
    now rewrite app_nil_r.
  - cbn [run_queries] in Hrun. unfold bind, query in Hrun.
    destruct (db_query E q (params_or_empty ps) (session w)) as [[e|r] d];
      [discriminate|].
    apply IH in Hrun. destruct Hrun as [answers [Hres Hlen]].
    exists (rows r :: answers). split.
    + rewrite Hres, <- app_assoc. reflexivity.
    + cbn. now rewrite Hlen.
Qed.

(** X1. [POST /transaction] never throws.  It answers 200 only when the
    session saw [BEGIN], every statement of the batch in order, and
    [COMMIT]; in every other case it answers 400 and the last call on
    the session is [ROLLBACK]. *)
Theorem transaction_ends_in_commit_or_rollback :
  forall (E : Engine) (H : Host) (body : jsval) (w : World E),
    exists response w' issued,
      post_transaction E H body w = (Ret response, w')
      /\ calls w' = calls w ++ issued
      /\ ((status response = 200
           /\ exists queries,
                transactionSchema body = Some queries
                /\ issued =
                     CallExec "BEGIN" :: map call_of queries
                     ++ [CallExec "COMMIT"])
          \/ (status response = 400
              /\ exists before, issued = before ++ [CallExec "ROLLBACK"])).
Proof.
  intros E H body w.
  unfold post_transaction, try_catch, parse.
  destruct (transactionSchema body) as [queries|] eqn:Hv.
  - unfold bind at 1. unfold ret at 1.
    unfold bind at 1. unfold exec at 1.
    destruct (db_exec E "BEGIN" (session w)) as [[e|[]] d1] eqn:Hb.
    + unfold bind, exec; cbn [session calls].
      destruct (db_exec E "ROLLBACK" d1) as [[e'|[]] d2];
        eexists; eexists; exists [CallExec "BEGIN"; CallExec "ROLLBACK"];
        (split; [reflexivity|split;
          [cbn [calls]; rewrite <- app_assoc; reflexivity|]]);
        right; (split; [reflexivity|]); exists [CallExec "BEGIN"]; reflexivity.
    + unfold bind at 1.
      destruct (run_queries E queries []
                  (mkWorld E d1 (calls w ++ [CallExec "BEGIN"])))
        as [o w2] eqn:Hrun.
      destruct (run_queries_log E queries [] _ w2 o Hrun) as [Hne [k Hk]].
      cbn [calls] in Hk.
      destruct o as [results|e|n]; [| |exfalso; exact (Hne n eq_refl)].
      * pose proof (run_queries_calls E queries [] results _ w2 Hrun) as [Hall _].
        cbn [calls] in Hall.
        unfold bind at 1. unfold exec at 1.
        destruct (db_exec E "COMMIT" (session w2)) as [[e|[]] d3].
        -- unfold bind, exec; cbn [session calls].
           destruct (db_exec E "ROLLBACK" d3) as [[e'|[]] d4];
             eexists; eexists;
             exists (CallExec "BEGIN" :: map call_of queries
                     ++ [CallExec "COMMIT"; CallExec "ROLLBACK"]);
             (split; [reflexivity|split;
               [cbn [calls]; rewrite Hall, <- !app_assoc; reflexivity|]]);
             right; (split; [reflexivity|]);
             exists (CallExec "BEGIN" :: map call_of queries
                     ++ [CallExec "COMMIT"]);
             cbn; rewrite <- app_assoc; reflexivity.
        -- unfold bind at 1. unfold res_json.
           destruct (serializes _); cbn [ret throw].
           ++ eexists; eexists;
                exists (CallExec "BEGIN" :: map call_of queries
                        ++ [CallExec "COMMIT"]).
              split; [reflexivity|]. split.
              ** cbn [calls]. rewrite Hall, <- !app_assoc. reflexivity.
              ** left. split; [reflexivity|]. exists queries. auto.
           ++ unfold bind, exec; cbn [session calls].
              destruct (db_exec E "ROLLBACK" d3) as [[e'|[]] d4];
                eexists; eexists;
                exists (CallExec "BEGIN" :: map call_of queries
                        ++ [CallExec "COMMIT"; CallExec "ROLLBACK"]);
                (split; [reflexivity|split;
                  [cbn [calls]; rewrite Hall, <- !app_assoc; reflexivity|]]);
                right; (split; [reflexivity|]);
                exists (CallExec "BEGIN" :: map call_of queries
                        ++ [CallExec "COMMIT"]);
                cbn; rewrite <- app_assoc; reflexivity.
      * unfold bind, exec; cbn [session calls].
        destruct (db_exec E "ROLLBACK" (session w2)) as [[e'|[]] d4];
          eexists; eexists;
          exists (CallExec "BEGIN" :: map call_of (firstn k queries)
                  ++ [CallExec "ROLLBACK"]);
          (split; [reflexivity|split;
            [cbn [calls]; rewrite Hk, <- !app_assoc; reflexivity|]]);
          right; (split; [reflexivity|]);
          exists (CallExec "BEGIN" :: map call_of (firstn k queries));
          reflexivity.
  - unfold bind at 1. unfold throw at 1. unfold bind, exec.
    destruct (db_exec E "ROLLBACK" (session w)) as [[e|[]] d];
      eexists; eexists; exists [CallExec "ROLLBACK"];
      (split; [reflexivity|split; [reflexivity|]]);
      right; (split; [reflexivity|]); exists []; reflexivity.
Qed.

(** The loop on a batch the engine resolves throughout. *)
Lemma run_queries_answers :
  forall (E : Engine) (queries : list (string * jsval)) (acc : list jsval)
         (d d' : DB E) (cs : list Call) (answers : list QueryResult),
    batch_answers E queries d = Some (answers, d') ->
    run_queries E queries acc (mkWorld E d cs) =
      (Ret (acc ++ map (fun r => result_entry (rows r)) answers),
       mkWorld E d' (cs ++ map call_of queries)).
Proof.
  intros E queries; induction queries as [|[q ps] queries IH];
    intros acc d d' cs answers Hans; cbn [batch_answers] in Hans.
  - inversion Hans; subst. cbn. now rewrite !app_nil_r.
  - cbn [run_queries]. unfold bind, query. cbn [session calls].
    destruct (db_query E q (params_or_empty ps) d) as [[e|r] d1];
      [discriminate|].
    destruct (batch_answers E queries d1) as [[rs d2]|] eqn:Hrest;
      [|discriminate].
    inversion Hans; subst.
    rewrite (IH _ _ _ _ _ Hrest). cbn [map].
    rewrite <- !app_assoc. reflexivity.
Qed.

(** X2. A batch whose statements the engine resolves one after the
    other and whose [COMMIT] succeeds: the session saw [BEGIN], the
    statements in the order of the batch and [COMMIT]; when the rows
    serialise, the answer is 200 with one result per statement, in that
    order, each holding the rows the engine returned for it and their
    number; when a row holds a [BigInt], [res.json] throws after the
    [COMMIT], and the handler issues [ROLLBACK] and answers 400. *)
Theorem transaction_success_results :
  forall (E : Engine) (H : Host) (body : jsval)
         (queries : list (string * jsval)) (w : World E)
         (answers : list QueryResult) (d1 d2 d3 : DB E),
    transactionSchema body = Some queries ->
    db_exec E "BEGIN" (session w) = (inr tt, d1) ->
    batch_answers E queries d1 = Some (answers, d2) ->
    db_exec E "COMMIT" d2 = (inr tt, d3) ->
    let results := map (fun r => result_entry (rows r)) answers in
    let issued :=
      CallExec "BEGIN" :: map call_of queries ++ [CallExec "COMMIT"] in
    post_transaction E H body w =
      if forallb serializes results
      then (Ret (json 200 [("success", VBool true);
                           ("results", VArr results)]),
            mkWorld E d3 (calls w ++ issued))
      else (Ret (failure 400 serialize_error),
            mkWorld E (snd (db_exec E "ROLLBACK" d3))
              (calls w ++ issued ++ [CallExec "ROLLBACK"])).
Proof.
  intros E H body queries w answers d1 d2 d3 Hv Hb Hans Hc results issued.
  unfold post_transaction, try_catch, parse. rewrite Hv.
  unfold bind at 1. unfold ret at 1.
  unfold bind at 1. unfold exec at 1. rewrite Hb.
  unfold bind at 1.
  rewrite (run_queries_answers E queries [] d1 d2 _ answers Hans).
  cbn [List.app]. fold results.
  unfold bind at 1. unfold exec at 1. cbn [session calls]. rewrite Hc.
  unfold bind at 1. unfold res_json.
  replace (serializes (VObj [("success", VBool true);
                             ("results", VArr results)]))
    with (forallb serializes results)
    by (cbn; now rewrite andb_true_r).
  destruct (forallb serializes results).
  - cbn [ret]. unfold issued. rewrite <- !app_assoc. reflexivity.
  - cbn [throw]. unfold bind, exec. cbn [session calls].
    unfold issued.
    destruct (db_exec E "ROLLBACK" d3) as [[e'|[]] d4];
      cbn; rewrite <- !app_assoc; reflexivity.
Qed.

(** X3. When [BEGIN] itself is rejected, no statement of the batch is
    executed: the session sees [BEGIN] and [ROLLBACK] only, and the
    answer is 400 with the message of the [BEGIN] error. *)
Theorem transaction_begin_rejected :
  forall (E : Engine) (H : Host) (body : jsval)
         (queries : list (string * jsval)) (w : World E) (e : JsError)
         (d : DB E),
    transactionSchema body = Some queries ->
    db_exec E "BEGIN" (session w) = (inl e, d) ->
    post_transaction E H body w =
      (Ret (failure 400 e),
       mkWorld E (snd (db_exec E "ROLLBACK" d))
         (calls w ++ [CallExec "BEGIN"; CallExec "ROLLBACK"])).
Proof.
  intros E H body queries w e d Hv Hb.
  unfold post_transaction, try_catch, parse. rewrite Hv.
  unfold bind at 1. unfold ret at 1.
  unfold bind at 1. unfold exec at 1. rewrite Hb.
  unfold bind, exec; cbn [session calls].
  destruct (db_exec E "ROLLBACK" d) as [[e'|[]] d'];
    cbn; rewrite <- app_assoc; reflexivity.
Qed.

(** X4. When every statement succeeded and [COMMIT] is rejected, the
    handler still issues [ROLLBACK] after it and answers 400 with the
    message of the [COMMIT] error; the results of the statements are not
    returned. *)
Theorem transaction_commit_rejected :
  forall (E : Engine) (H : Host) (body : jsval)
         (queries : list (string * jsval)) (results : list jsval)
         (w w1 w2 : World E) (e : JsError) (d : DB E),
    transactionSchema body = Some queries ->
    exec E "BEGIN" w = (Ret tt, w1) ->
    run_queries E queries [] w1 = (Ret results, w2) ->
    db_exec E "COMMIT" (session w2) = (inl e, d) ->
    post_transaction E H body w =
      (Ret (failure 400 e),
       mkWorld E (snd (db_exec E "ROLLBACK" d))
         (calls w2 ++ [CallExec "COMMIT"; CallExec "ROLLBACK"]))
    /\ response_field "results" (failure 400 e) = None.
Proof.
  intros E H body queries results w w1 w2 e d Hv Hb Hrun Hc.
  split; [|reflexivity].
  unfold post_transaction, try_catch, parse. rewrite Hv.
  unfold bind at 1. unfold ret at 1.
  unfold bind at 1. rewrite Hb.
  unfold bind at 1. rewrite Hrun.
  unfold bind at 1. unfold exec at 1. rewrite Hc.
  unfold bind, exec; cbn [session calls].
  destruct (db_exec E "ROLLBACK" d) as [[e'|[]] d'];
    cbn; rewrite <- app_assoc; reflexivity.
Qed.

(** ** Single statements *)

Lemma serializes_fields :
  forall fs : option (list Field), serializes (fields_value fs) = true.
Proof.
  intros [l|]; [|reflexivity]. cbn.
  induction l as [|f l IH]; [reflexivity|exact IH].
Qed.

(** X5. [POST /query] on a body that passes its schema makes exactly one
    call, with the query text and the given parameters, or none when
    [params] is absent.  A result whose rows serialise is answered 200
    with the rows the engine returned and [rowCount] equal to their
    number; one with a [BigInt] in a row makes [res.json] throw and is
    answered 400 with the message of that error and no code; a rejection
    is answered 400 with the engine's message and code. *)
Theorem post_query_runs_once :
  forall (E : Engine) (H : Host) (body : jsval) (q : string) (params : jsval)
         (w : World E),
    querySchema body = Some (q, params) ->
    let sent := params_or_empty params in
    let answer := db_query E q sent (session w) in
    let refusal (e : JsError) :=
      json 400 [("success", VBool false);
                ("error", VStr (message e));
                ("code", opt_string (code e))] in
    post_query E H body w =
      (Ret (match fst answer with
            | inr result =>
                if serializes (rows_value (rows result))
                then json 200 [("success", VBool true);
                               ("rows", rows_value (rows result));
                               ("rowCount",
                                VNum (Z.of_nat (length (rows result))));
                               ("fields", fields_value (fields result))]
                else refusal serialize_error
            | inl e => refusal e
            end),
       mkWorld E (snd answer) (calls w ++ [CallQuery q sent]))
    /\ q <> EmptyString
    /\ (params = VUndef -> sent = []).
Proof.
  intros E H body q params w Hv sent answer refusal. split; [|split].
  - unfold post_query, try_catch, bind, parse. rewrite Hv. cbn [ret].
    unfold query. fold sent. subst answer.
    destruct (db_query E q sent (session w)) as [[e|r] d]; [reflexivity|].
    unfold res_json.
    replace (serializes (VObj [("success", VBool true);
                               ("rows", rows_value (rows r));
                               ("rowCount", row_count (rows r));
                               ("fields", fields_value (fields r))]))
      with (serializes (rows_value (rows r))).
    + cbn [fst snd]. destruct (serializes (rows_value (rows r))); reflexivity.
    + cbn [serializes forallb snd]. rewrite serializes_fields.
      cbn. now rewrite andb_true_r.
  - destruct body as [| |b|n|s|items|props|?|?|?]; try discriminate.
    cbn in Hv.
    destruct (get_prop "query" props) as [| |b'|n'|text|items'|ps'|?|?|?];
      destruct (get_prop "params" props); try discriminate;
      unfold nonempty in Hv;
      (destruct (String.eqb_spec text EmptyString) as [Heq|Hne]; cbn in Hv;
       [discriminate|inversion Hv; subst; assumption]).
  - intros ->. reflexivity.
Qed.

(** X6. [POST /import] on a body that passes its schema hands the text
    to the session as it is, in one call and with no [BEGIN], [COMMIT] or
    [ROLLBACK] of its own around it; it answers 200 when the batch
    resolved and 400 with the engine's message when it was rejected. *)
Theorem post_import_runs_text_as_is :
  forall (E : Engine) (H : Host) (body : jsval) (sql : string) (w : World E),
    importSchema body = Some sql ->
    let answer := db_exec E sql (session w) in
    post_import E H body w =
      (Ret (match fst answer with
            | inr _ =>
                json 200 [("success", VBool true);
                          ("message", VStr "SQL imported successfully")]
            | inl e => failure 400 e
            end),
       mkWorld E (snd answer) (calls w ++ [CallExec sql]))
    /\ sql <> EmptyString.
Proof.
  intros E H body sql w Hv answer. split.
  - unfold post_import, try_catch, bind, parse. rewrite Hv. cbn [ret].
    unfold exec. subst answer.
    destruct (db_exec E sql (session w)) as [[e|[]] d]; reflexivity.
  - destruct body as [| |b|n|s|items|props|?|?|?]; try discriminate.
    cbn in Hv.
    destruct (get_prop "sql" props) as [| |b'|n'|text|items'|ps'|?|?|?];
      try discriminate.
    unfold nonempty in Hv.
    destruct (String.eqb_spec text EmptyString) as [Heq|Hne]; cbn in Hv;
      [discriminate|]. inversion Hv; subst; assumption.
Qed.

(** ** The users table *)

(** What a request on [/users/:id] that has a statement does: the one
    call, and the answer by what the engine returned. *)
Lemma user_route_resolved :
  forall (E : Engine) (H : Host) (id : string) (rq : UserRequest)
         (w : World E) (sql : string) (params : list jsval),
    user_statement H id rq = Some (sql, params) ->
    user_route E H id rq w =
      (let (r, d) := db_query E sql params (session w) in
       (Ret (match r with
             | inl e => failure (user_error_status rq) e
             | inr result =>
                 match rows result with
                 | [] => not_found
                 | row :: _ =>
                     if serializes (VObj row)
                     then json 200 (found_body rq row)
                     else failure (user_error_status rq) serialize_error
                 end
             end),
        mkWorld E d (calls w ++ [CallQuery sql params]))).
Proof.
  intros E H id rq w sql params Hstmt.
  destruct rq as [|body|]; cbn [user_route]; cbn [user_statement] in Hstmt.
  - inversion Hstmt; subst sql params.
    unfold get_user, try_catch, bind, query.
    destruct (db_query E _ _ (session w)) as [[e|r] d]; [reflexivity|].
    destruct (rows r) as [|row rs]; [reflexivity|].
    unfold res_json. cbn [first_row serializes forallb snd].
    rewrite !andb_true_r.
    destruct (forallb _ row); reflexivity.
  - unfold put_user, try_catch, bind, parse.
    destruct (userUpdateSchema H body) as [[name email]|]; [|discriminate].
    cbn [ret].
    destruct (updates (build_set name email)) as [|u us] eqn:Hu;
      [discriminate|].
    inversion Hstmt; subst sql params. unfold query.
    destruct (db_query E _ _ (session w)) as [[e|r] d]; [reflexivity|].
    destruct (rows r) as [|row rs]; [reflexivity|].
    unfold res_json. cbn [first_row serializes forallb snd].
    rewrite !andb_true_r.
    destruct (forallb _ row); reflexivity.
  - inversion Hstmt; subst sql params.
    unfold delete_user, try_catch, bind, query.
    destruct (db_query E _ _ (session w)) as [[e|r] d]; [reflexivity|].
    destruct (rows r) as [|row rs]; [reflexivity|].
    unfold res_json. cbn [first_row serializes forallb snd].
    rewrite !andb_true_r.
    destruct (forallb _ row); reflexivity.
Qed.

(** A request on [/users/:id] that has no statement leaves the session
    alone. *)
Lemma user_route_unsent :
  forall (E : Engine) (H : Host) (id : string) (rq : UserRequest)
         (w : World E),
    user_statement H id rq = None ->
    snd (user_route E H id rq w) = w.
Proof.
  intros E H id rq w Hstmt.
  destruct rq as [|body|]; cbn [user_statement] in Hstmt; try discriminate.
  cbn [user_route]. unfold put_user, try_catch, bind, parse.
  destruct (userUpdateSchema H body) as [[name email]|]; [|reflexivity].
  cbn [ret].
  destruct (updates (build_set name email)); [reflexivity|discriminate].
Qed.

(** X7. On [/users/:id], when the handler's statement ran and the engine
    rejected it, [GET] and [DELETE] answer 500 and [PUT] answers 400,
    each with the engine's message; the same rejection, an id that is not
    a number for one, is a server error on two routes and a client error
    on the third. *)
Theorem user_route_rejection_status :
  forall (E : Engine) (H : Host) (id : string) (rq : UserRequest)
         (w w' : World E) (response : Response)
         (sql : string) (params : list jsval) (e : JsError) (d : DB E),
    user_route E H id rq w = (Ret response, w') ->
    calls w' = calls w ++ [CallQuery sql params] ->
    db_query E sql params (session w) = (inl e, d) ->
    response =
      failure (match rq with PutUser _ => 400 | _ => 500 end) e.
Proof.
  intros E H id rq w w' response sql params e d Hrun Hcalls Hq.
  destruct (user_statement H id rq) as [[sql0 params0]|] eqn:Hstmt.
  - rewrite (user_route_resolved E H id rq w sql0 params0 Hstmt) in Hrun.
    destruct (db_query E sql0 params0 (session w)) as [r d0] eqn:Hdb.
    inversion Hrun; subst w'. cbn [calls] in Hcalls.
    apply last_call_inj in Hcalls. inversion Hcalls; subst sql0 params0.
    rewrite Hdb in Hq. inversion Hq; subst r d0.
    destruct rq; reflexivity.
  - pose proof (user_route_unsent E H id rq w Hstmt) as Hsame.
    rewrite Hrun in Hsame. cbn [snd] in Hsame. subst w'.
    apply not_self_extended in Hcalls. contradiction.
Qed.

(** X8. On [/users/:id], when the handler's statement returned at least
    one row, the session has seen that one statement and the answer
    reports the first row returned and no further one: 200 with that row
    as [user] when it serialises; when it holds a [BigInt], [res.json]
    throws and the answer is that of the handler's [catch], 500 on [GET]
    and [DELETE] and 400 on [PUT], with the message of that error. *)
Theorem user_route_found :
  forall (E : Engine) (H : Host) (id : string) (rq : UserRequest)
         (w : World E) (sql : string) (params : list jsval)
         (result : QueryResult) (row : Row) (more : list Row) (d : DB E),
    user_statement H id rq = Some (sql, params) ->
    db_query E sql params (session w) = (inr result, d) ->
    rows result = row :: more ->
    user_route E H id rq w =
      (Ret (if serializes (VObj row)
            then json 200 (found_body rq row)
            else failure (user_error_status rq) serialize_error),
       mkWorld E d (calls w ++ [CallQuery sql params])).
Proof.
  intros E H id rq w sql params result row more d Hstmt Hq Hrows.
  rewrite (user_route_resolved E H id rq w sql params Hstmt), Hq, Hrows.
  reflexivity.
Qed.

(** X9. In the update handler the placeholders and the bound values
    agree, whatever the two fields are: there is one bound value per
    assignment, every bound value is a truthy one, and with the id added
    the statement binds exactly as many values as its highest
    placeholder, the one of the id. *)
Theorem update_placeholders_match_values :
  forall (name email id : jsval),
    let acc := build_set name email in
    length (updates acc) = length (values acc)
    /\ Z.of_nat (length (values acc ++ [id])) = paramCount acc
    /\ forallb truthy (values acc) = true
    /\ incl (values acc) [name; email].
Proof.
  intros name email id acc. subst acc.
  unfold build_set, push_if_present.
  destruct (truthy name) eqn:Hn, (truthy email) eqn:He; cbn;
    rewrite ?Hn, ?He; repeat split; try reflexivity;
    intros x Hx; cbn in *; tauto.
Qed.

(** X10. [POST /users] on a body that passes its schema binds the name
    and the e-mail in that order to one [INSERT]; a result is answered
    201 with the first returned row as [user] (no [user] when the engine
    returned no row), unless that row holds a [BigInt], on which
    [res.json] throws and the answer is 400 with the message of that
    error although the row was inserted; a rejection, a duplicate e-mail
    for one, is answered 400 with the engine's message.  A body passes
    only with a non-empty name and an e-mail the validator accepts. *)
Theorem post_users_inserts_once :
  forall (E : Engine) (H : Host) (body : jsval) (name email : string)
         (w : World E),
    userCreateSchema H body = Some (name, email) ->
    let sql :=
      "INSERT INTO users (name, email) VALUES ($1, $2) RETURNING *"%string in
    let answer := db_query E sql [VStr name; VStr email] (session w) in
    post_users E H body w =
      (Ret (match fst answer with
            | inr result =>
                if serializes (first_row (rows result))
                then json 201 [("success", VBool true);
                               ("user", first_row (rows result))]
                else failure 400 serialize_error
            | inl e => failure 400 e
            end),
       mkWorld E (snd answer)
         (calls w ++ [CallQuery sql [VStr name; VStr email]]))
    /\ name <> EmptyString
    /\ is_email H email = true.
Proof.
  intros E H body name email w Hv sql answer. split.
  - unfold post_users, try_catch, bind, parse. rewrite Hv. cbn [ret].
    unfold query. fold sql. subst answer.
    destruct (db_query E sql [VStr name; VStr email] (session w))
      as [[e|r] d]; [reflexivity|].
    unfold res_json. cbn [serializes forallb snd fst].
    rewrite andb_true_r.
    destruct (serializes (first_row (rows r))); reflexivity.
  - destruct body as [| |b|n|s|items|props|?|?|?]; try discriminate.
    cbn in Hv.
    destruct (get_prop "name" props) as [| |b'|n'|text|items'|ps'|?|?|?];
      destruct (get_prop "email" props) as [| |b''|n''|mail|items''|ps''|?|?|?];
      try discriminate.
    unfold nonempty in Hv.
    destruct (String.eqb_spec text EmptyString) as [Heq|Hne]; cbn in Hv;
      [discriminate|].
    destruct (is_email H mail) eqn:Hmail; [|discriminate].
    inversion Hv; subst. auto.
Qed.

(** ** The export, further *)

(** X11. The quoting of a text cell loses nothing and cannot end the
    literal early: collapsing the doubled quotes gives the text back, two
    texts with the same quoting are the same text, and every single quote
    of the quoted text is one of a pair. *)
Theorem double_quotes_round_trip :
  forall s : string,
    undouble (double_quotes s) = s
    /\ quotes_paired (double_quotes s) = true
    /\ forall s', double_quotes s = double_quotes s' -> s = s'.
Proof.
  assert (Hback : forall s, undouble (double_quotes s) = s).
  { induction s as [|c s IH]; [reflexivity|].
    cbn [double_quotes]. destruct (Ascii.eqb c "'"%char) eqn:Hc.
    - apply Ascii.eqb_eq in Hc. subst c. cbn. now rewrite IH.
    - cbn [undouble]. rewrite Hc. now rewrite IH. }
  intros s. split; [apply Hback|split].
  - induction s as [|c s IH]; [reflexivity|].
    cbn [double_quotes]. destruct (Ascii.eqb c "'"%char) eqn:Hc.
    + cbn. exact IH.
    + cbn [quotes_paired]. rewrite Hc. exact IH.
  - intros s' Heq. rewrite <- (Hback s), <- (Hback s'), Heq. reflexivity.
Qed.

(** The inner loop, from the lines of the rows. *)
Lemma export_rows_lines :
  forall (t : jsval) (rs : list Row) (lines : list string) (dump : string),
    Forall2 (fun row line => insert_statement t row = inr line) rs lines ->
    export_rows t rs dump = inr (dump ++ String.concat EmptyString lines)%string.
Proof.
  intros t rs lines dump Hall; revert dump.
  induction Hall as [|row line rs lines Hline Hall IH]; intros dump.
  - cbn. now rewrite append_empty_r.
  - cbn [export_rows]. rewrite Hline, IH.
    destruct lines as [|l ls].
    + cbn. now rewrite !append_empty_r.
    + rewrite append_assoc. reflexivity.
Qed.

(** X12. What the export appends for one table: the [CREATE TABLE] text
    the engine built, a blank line, then one [INSERT] line per row in the
    order the rows were selected and a closing blank line; a table
    without rows gets neither.  The session sees the catalog statement
    and then the selection, nothing else. *)
Theorem export_table_layout :
  forall (E : Engine) (t : string) (table : Row) (dump : string) (w : World E)
         (created data : QueryResult) (d1 d2 : DB E)
         (create : string) (lines : list string),
    get_prop "tablename" table = VStr t ->
    db_query E sql_export_create [VStr t] (session w) = (inr created, d1) ->
    to_string (create_stmt_of (rows created)) = inr create ->
    db_query E ("SELECT * FROM " ++ t)%string [] d1 = (inr data, d2) ->
    Forall2 (fun row line => insert_statement (VStr t) row = inr line)
            (rows data) lines ->
    export_table E table dump w =
      (Ret (dump ++ create ++ nl ++ nl ++ String.concat EmptyString lines
            ++ match lines with [] => EmptyString | _ :: _ => nl end)%string,
       mkWorld E d2
         (calls w ++ [CallQuery sql_export_create [VStr t];
                      CallQuery ("SELECT * FROM " ++ t)%string []])).
Proof.
  intros E t table dump w created data d1 d2 create lines
         Ht Hc Hcreate Hd Hlines.
  unfold export_table. rewrite Ht.
  unfold bind at 1. unfold query at 1. rewrite Hc.
  unfold bind at 1. rewrite Hcreate. cbn [lift_err ret].
  unfold bind at 1. cbn [to_string lift_err ret].
  unfold bind at 1. unfold query at 1. cbn [session calls]. rewrite Hd.
  rewrite <- app_assoc. cbn [app].
  destruct Hlines as [|row line rs lines Hline Hrest].
  - reflexivity.
  - unfold bind.
    rewrite (export_rows_lines (VStr t) (row :: rs) (line :: lines)
               ((dump ++ create ++ nl ++ nl)%string)
               (Forall2_cons _ _ Hline Hrest)).
    cbn [lift_err ret]. rewrite !append_assoc. reflexivity.
Qed.

(** One table, and so any number of tables, only adds to the dump, and
    never exits. *)
Lemma export_table_grows :
  forall (E : Engine) (table : Row) (dump : string) (w w' : World E)
         (o : outcome string),
    export_table E table dump w = (o, w') ->
    match o with
    | Ret out => exists tail, out = (dump ++ tail)%string
    | Throw _ => True
    | Exit _ => False
    end.
Proof.
  intros E table dump w w' o. unfold export_table, bind, query.
  destruct (db_query E sql_export_create _ (session w)) as [[e|created] d1];
    [intros Hr; inversion Hr; exact I|].
  destruct (to_string (create_stmt_of (rows created))) as [e|create];
    cbn [lift_err throw ret]; [intros Hr; inversion Hr; exact I|].
  destruct (to_string (get_prop "tablename" table)) as [e|t];
    cbn [lift_err throw ret]; [intros Hr; inversion Hr; exact I|].
  cbn [session calls].
  destruct (db_query E _ [] d1) as [[e|data] d2];
    [intros Hr; inversion Hr; exact I|].
  destruct (rows data) as [|row rs] eqn:Hrows.
  - intros Hr; inversion Hr; subst. exists (create ++ nl ++ nl)%string.
    reflexivity.
  - destruct (export_rows (get_prop "tablename" table) (row :: rs)
                (dump ++ create ++ nl ++ nl)) as [e|out] eqn:Hout;
      cbn [lift_err throw ret]; intros Hr; inversion Hr; subst; [exact I|].
    apply export_rows_one_line_each in Hout.
    destruct Hout as [lines [_ ->]].
    exists (create ++ nl ++ nl ++ String.concat EmptyString lines ++ nl)%string.
    rewrite !append_assoc. reflexivity.
Qed.

Lemma export_tables_grows :
  forall (E : Engine) (tables : list Row) (dump : string) (w w' : World E)
         (o : outcome string),
    export_tables E tables dump w = (o, w') ->
    match o with
    | Ret out => exists tail, out = (dump ++ tail)%string
    | Throw _ => True
    | Exit _ => False
    end.
Proof.
  intros E tables; induction tables as [|table tables IH];
    intros dump w w' o Hrun.
  - cbn in Hrun. inversion Hrun; subst. exists EmptyString.
    now rewrite append_empty_r.
  - cbn [export_tables] in Hrun. unfold bind in Hrun.
    destruct (export_table E table dump w) as [[out|e|n] w1] eqn:Hone;
      pose proof (export_table_grows E table dump w w1 _ Hone) as Hg;
      cbn in Hg.
    + destruct Hg as [tail ->]. apply IH in Hrun.
      destruct o as [out|e|n]; [|exact I|contradiction].
      destruct Hrun as [tail' ->]. exists (tail ++ tail')%string.
      now rewrite append_assoc.
    + inversion Hrun; subst. exact I.
    + contradiction.
Qed.

(** The tables of a listing are exported one after the other. *)
Lemma export_tables_app :
  forall (E : Engine) (before after : list Row) (dump : string) (w : World E),
    export_tables E (before ++ after) dump w =
      bind (export_tables E before dump)
           (fun written => export_tables E after written) w.
Proof.
  intros E before after; induction before as [|table before IH];
    intros dump w.
  - reflexivity.
  - rewrite <- app_comm_cons. cbn [export_tables]. unfold bind.
    destruct (export_table E table dump w) as [[out|e|n] w1];
      [|reflexivity|reflexivity].
    rewrite IH. reflexivity.
Qed.

(** X13. A listed table for which the catalog statement returns no row,
    as for a table without columns, is written into the dump as the word
    "undefined" where its [CREATE TABLE] statement belongs, wherever it
    stands in the listing and whatever rows it has; the export goes on
    with the tables after it and answers 200 with the whole dump. *)
Theorem export_writes_undefined_for_missing_create :
  forall (E : Engine) (H : Host) (w : World E) (listing : QueryResult)
         (d0 : DB E) (before after : list Row) (table : Row) (t : string)
         (dump1 : string) (w1 : World E)
         (created data : QueryResult) (d1 d2 : DB E) (lines : list string)
         (out : string) (w3 : World E),
    db_query E sql_export_tables [] (session w) = (inr listing, d0) ->
    rows listing = before ++ table :: after ->
    export_tables E before (export_header H)
      (mkWorld E d0 (calls w ++ [CallQuery sql_export_tables []])) =
      (Ret dump1, w1) ->
    get_prop "tablename" table = VStr t ->
    db_query E sql_export_create [VStr t] (session w1) = (inr created, d1) ->
    rows created = [] ->
    db_query E ("SELECT * FROM " ++ t)%string [] d1 = (inr data, d2) ->
    Forall2 (fun row line => insert_statement (VStr t) row = inr line)
            (rows data) lines ->
    let written :=
      (dump1 ++ "undefined" ++ nl ++ nl ++ String.concat EmptyString lines
       ++ match lines with [] => EmptyString | _ :: _ => nl end)%string in
    export_tables E after written
      (mkWorld E d2
         (calls w1 ++ [CallQuery sql_export_create [VStr t];
                       CallQuery ("SELECT * FROM " ++ t)%string []])) =
      (Ret out, w3) ->
    get_export E H w = (Ret (sql_dump out), w3)
    /\ exists tail, out = (written ++ tail)%string.
Proof.
  intros E H w listing d0 before after table t dump1 w1 created data d1 d2
         lines out w3 Hl Hrows Hbefore Ht Hc Hnone Hd Hlines written Hafter.
  assert (Htable :
    export_table E table dump1 w1 =
      (Ret written,
       mkWorld E d2
         (calls w1 ++ [CallQuery sql_export_create [VStr t];
                       CallQuery ("SELECT * FROM " ++ t)%string []]))).
  { unfold export_table. rewrite Ht.
    unfold bind at 1. unfold query at 1. rewrite Hc, Hnone.
    unfold bind at 1. cbn [create_stmt_of to_string lift_err ret].
    unfold bind at 1. cbn [to_string lift_err ret].
    unfold bind at 1. unfold query at 1. cbn [session calls]. rewrite Hd.
    rewrite <- app_assoc. cbn [List.app]. unfold written.
    destruct Hlines as [|row line rs lines Hline Hrest].
    - reflexivity.
    - unfold bind.
      rewrite (export_rows_lines (VStr t) (row :: rs) (line :: lines)
                 ((dump1 ++ "undefined" ++ nl ++ nl)%string)
                 (Forall2_cons _ _ Hline Hrest)).
      cbn [lift_err ret]. rewrite !append_assoc. reflexivity. }
  split.
  - unfold get_export, try_catch. unfold bind at 1. unfold query at 1.
    rewrite Hl, Hrows. unfold bind at 1.
    rewrite export_tables_app. unfold bind at 1. rewrite Hbefore.
    cbn [export_tables]. unfold bind at 1. rewrite Htable, Hafter.
    reflexivity.
  - exact (export_tables_grows E after written _ w3 (Ret out) Hafter).
Qed.

(** X14. [GET /export] never throws and never sends part of a dump.
    When the table listing is rejected the answer is 500 with the
    engine's message.  When the export of a listed table throws, after
    any number of tables went through, what was built of the dump is
    dropped, the tables after it are not read, and the answer is 500
    with the message of the error thrown there.  When every table goes
    through, the answer is 200 with the dump, which begins with the two
    header lines. *)
Theorem export_is_whole_or_500 :
  forall (E : Engine) (H : Host) (w : World E),
    let listed (d : DB E) :=
      mkWorld E d (calls w ++ [CallQuery sql_export_tables []]) in
    (exists response w',
       get_export E H w = (Ret response, w')
       /\ (status response = 200 \/ status response = 500))
    /\ (forall (e : JsError) (d : DB E),
          db_query E sql_export_tables [] (session w) = (inl e, d) ->
          get_export E H w = (Ret (failure 500 e), listed d))
    /\ (forall (listing : QueryResult) (d : DB E)
               (before after : list Row) (table : Row)
               (dump1 : string) (w1 w2 : World E) (e : JsError),
          db_query E sql_export_tables [] (session w) = (inr listing, d) ->
          rows listing = before ++ table :: after ->
          export_tables E before (export_header H) (listed d) =
            (Ret dump1, w1) ->
          export_table E table dump1 w1 = (Throw e, w2) ->
          get_export E H w = (Ret (failure 500 e), w2))
    /\ (forall (listing : QueryResult) (d : DB E) (out : string)
               (w1 : World E),
          db_query E sql_export_tables [] (session w) = (inr listing, d) ->
          export_tables E (rows listing) (export_header H) (listed d) =
            (Ret out, w1) ->
          get_export E H w = (Ret (sql_dump out), w1)
          /\ exists tail, out = (export_header H ++ tail)%string).
Proof.
  intros E H w listed. split; [|split; [|split]].
  - unfold get_export, try_catch. unfold bind at 1. unfold query at 1.
    destruct (db_query E sql_export_tables [] (session w))
      as [[e|listing] d0].
    + eexists; eexists. split; [reflexivity|]. right. reflexivity.
    + unfold bind.
      destruct (export_tables E (rows listing) (export_header H) _)
        as [[out|e|n] w1] eqn:Hrun;
        pose proof (export_tables_grows E _ _ _ w1 _ Hrun) as Hg; cbn in Hg.
      * eexists; eexists. split; [reflexivity|]. left. reflexivity.
      * eexists; eexists. split; [reflexivity|]. right. reflexivity.
      * contradiction.
  - intros e d Hl. unfold get_export, try_catch. unfold bind at 1.
    unfold query at 1. rewrite Hl. reflexivity.
  - intros listing d before after table dump1 w1 w2 e
           Hl Hrows Hbefore Htable.
    unfold get_export, try_catch. unfold bind at 1. unfold query at 1.
    rewrite Hl, Hrows. unfold bind at 1.
    rewrite export_tables_app. unfold bind at 1. fold (listed d).
    rewrite Hbefore. cbn [export_tables]. unfold bind at 1.
    rewrite Htable. reflexivity.
  - intros listing d out w1 Hl Hrun. split.
    + unfold get_export, try_catch. unfold bind at 1. unfold query at 1.
      rewrite Hl. unfold bind. fold (listed d). rewrite Hrun. reflexivity.
    + exact (export_tables_grows E _ _ _ w1 (Ret out) Hrun).
Qed.

(** ** The application as a whole *)

Lemma never_exits_ret :
  forall (S A : Type) (a : A), never_exits (@ret S A a).
Proof. intros S A a s n s' Hr. discriminate Hr. Qed.

Lemma never_exits_lift_err :
  forall (S A : Type) (r : JsError + A), never_exits (@lift_err S A r).
Proof. intros S A [e|a] s n s' Hr; discriminate Hr. Qed.

Lemma never_exits_bind :
  forall (S A B : Type) (m : M S A) (k : A -> M S B),
    never_exits m -> (forall a, never_exits (k a)) -> never_exits (bind m k).
Proof.
  intros S A B m k Hm Hk s n s' Hr. unfold bind in Hr.
  destruct (m s) as [[a|e|n'] s1] eqn:Hms.
  - exact (Hk a s1 n s' Hr).
  - discriminate Hr.
  - exact (Hm s n' s1 Hms).
Qed.

Lemma never_exits_query :
  forall (E : Engine) (sql : string) (params : list jsval),
    never_exits (query E sql params).
Proof.
  intros E sql params s n s' Hr. unfold query in Hr.
  destruct (db_query E sql params (session s)) as [[e|r] d]; discriminate Hr.
Qed.

Lemma never_exits_exec :
  forall (E : Engine) (sql : string), never_exits (exec E sql).
Proof.
  intros E sql s n s' Hr. unfold exec in Hr.
  destruct (db_exec E sql (session s)) as [[e|[]] d]; discriminate Hr.
Qed.

Lemma never_exits_parse :
  forall (E : Engine) (H : Host) (A : Type) (schema : Schema)
         (validator : jsval -> option A) (body : jsval),
    never_exits (parse E H schema validator body).
Proof.
  intros E H A schema validator body s n s' Hr. unfold parse in Hr.
  destruct (validator body); discriminate Hr.
Qed.

Lemma never_exits_res_json :
  forall (S : Type) (n : Z) (props : list (string * jsval)),
    never_exits (@res_json S n props).
Proof.
  intros S n props s m s' Hr. unfold res_json in Hr.
  destruct (serializes (VObj props)); discriminate Hr.
Qed.

Lemma never_exits_run_queries :
  forall (E : Engine) (queries : list (string * jsval)) (acc : list jsval),
    never_exits (run_queries E queries acc).
Proof.
  intros E queries acc s n s' Hr.
  destruct (run_queries_log E queries acc s s' _ Hr) as [Hne _].
  exact (Hne n eq_refl).
Qed.

Lemma never_exits_export_tables :
  forall (E : Engine) (tables : list Row) (dump : string),
    never_exits (export_tables E tables dump).
Proof.
  intros E tables dump s n s' Hr.
  exact (export_tables_grows E tables dump s s' _ Hr).
Qed.

(** A [try] whose body cannot exit and whose [catch] answers always
    answers. *)
Lemma try_catch_returns :
  forall (S A : Type) (m : M S A) (handler : JsError -> M S A),
    never_exits m -> (forall e, returns (handler e)) ->
    returns (try_catch m handler).
Proof.
  intros S A m handler Hm Hh s. unfold try_catch.
  destruct (m s) as [[a|e|n] s1] eqn:Hms.
  - eauto.
  - apply Hh.
  - exfalso. exact (Hm s n s1 Hms).
Qed.

Lemma returns_ret :
  forall (S A : Type) (a : A), returns (@ret S A a).
Proof. intros S A a s. unfold ret. eauto. Qed.

Lemma returns_bind :
  forall (S A B : Type) (m : M S A) (k : A -> M S B),
    returns m -> (forall a, returns (k a)) -> returns (bind m k).
Proof.
  intros S A B m k Hm Hk s. unfold bind.
  destruct (Hm s) as [a [s1 ->]]. apply Hk.
Qed.

Ltac answers :=
  apply try_catch_returns; [|intros; apply returns_ret];
  repeat first
    [ apply never_exits_ret
    | apply never_exits_query
    | apply never_exits_exec
    | apply never_exits_parse
    | apply never_exits_lift_err
    | apply never_exits_res_json
    | apply never_exits_run_queries
    | apply never_exits_export_tables
    | apply never_exits_bind; [|intros]
    | match goal with
      | |- never_exits (match ?x with _ => _ end) => destruct x
      | |- never_exits (let _ := _ in _) => cbv zeta
      end ].

Lemma handlers_return :
  forall (E : Engine) (H : Host) (body : jsval) (segment : string),
    returns (health E H)
    /\ returns (post_query E H body)
    /\ returns (post_transaction E H body)
    /\ returns (get_tables E)
    /\ returns (get_table_schema E segment)
    /\ returns (get_export E H)
    /\ returns (post_import E H body)
    /\ returns (get_stats E)
    /\ returns (get_users E)
    /\ returns (post_users E H body)
    /\ returns (get_user E H segment)
    /\ returns (put_user E H segment body)
    /\ returns (delete_user E H segment).
Proof.
  intros E H body segment.
  repeat split;
    try (unfold health; apply returns_ret);
    try (unfold post_query, get_tables, get_table_schema, get_export,
           post_import, get_stats, get_users, post_users, get_user,
           put_user, delete_user; answers).
  unfold post_transaction. apply try_catch_returns.
  - repeat first
      [ apply never_exits_ret | apply never_exits_exec
      | apply never_exits_res_json
      | apply never_exits_parse | apply never_exits_run_queries
      | apply never_exits_bind; [|intros] ].
  - intros e. apply returns_bind; [|intros; apply returns_ret].
    apply try_catch_returns; [apply never_exits_exec|].
    intros; apply returns_ret.
Qed.

Ltac routed Hany :=
  repeat match goal with
         | |- returns (if ?b then _ else _) => destruct b
         | |- returns (match ?x with _ => _ end) => destruct x
         end;
  try apply returns_ret;
  try (destruct (Hany EmptyString)
         as (? & ? & ? & ? & ? & ? & ? & ? & ? & ? & ? & ? & ?);
       assumption);
  try match goal with
      | |- returns (get_table_schema _ ?s) =>
          destruct (Hany s)
            as (? & ? & ? & ? & ? & ? & ? & ? & ? & ? & ? & ? & ?)
      | |- returns (get_user _ _ ?s) =>
          destruct (Hany s)
            as (? & ? & ? & ? & ? & ? & ? & ? & ? & ? & ? & ? & ?)
      | |- returns (put_user _ _ ?s _) =>
          destruct (Hany s)
            as (? & ? & ? & ? & ? & ? & ? & ? & ? & ? & ? & ? & ?)
      | |- returns (delete_user _ _ ?s) =>
          destruct (Hany s)
            as (? & ? & ? & ? & ? & ? & ? & ? & ? & ? & ? & ? & ?)
      end;
  try assumption.

Lemma dispatch_returns :
  forall (E : Engine) (H : Host) (req : Request) (body : jsval),
    returns (dispatch E H req body).
Proof.
  intros E H req body.
  assert (Hany : forall segment, _) by exact (handlers_return E H body).
  unfold dispatch, with_param. cbv zeta.
  destruct (route_segments (path req)) as [|a [|b [|c [|x rest]]]];
    routed Hany.
Qed.

(** X15. No request makes the application throw or exit: whatever the
    request and whatever the engine does, a response is produced, so no
    error leaves a handler for the framework's generic error path. *)
Theorem app_always_answers :
  forall (E : Engine) (H : Host) (req : Request) (w : World E),
    exists response w', app E H req w = (Ret response, w').
Proof.
  intros E H req w. unfold app.
  destruct (cors req) as [answer|]; [unfold ret; eauto|].
  destruct (express_json H req) as [refusal|body]; [unfold ret; eauto|].
  unfold bind.
  destruct (dispatch_returns E H req body w) as [response [w' ->]].
  unfold ret; eauto.
Qed.

(** X16. A request whose method is none of GET, HEAD, POST, PUT and
    DELETE, or whose path, one slash at its end apart, has no segment or
    more than three, never reaches the session: the engine state and the
    call log are as before. *)
Theorem unrouted_request_leaves_session :
  forall (E : Engine) (H : Host) (req : Request) (w : World E),
    (method req <> "GET"%string /\ method req <> "HEAD"%string
     /\ method req <> "POST"%string
     /\ method req <> "PUT"%string /\ method req <> "DELETE"%string)
    \/ route_segments (path req) = []
    \/ (3 < length (route_segments (path req)))%nat ->
    snd (app E H req w) = w.
Proof.
  intros E H req w Hun. unfold app.
  destruct (cors req) as [answer|]; [reflexivity|].
  destruct (express_json H req) as [refusal|body]; [reflexivity|].
  assert (Hsame : snd (dispatch E H req body w) = w).
  { unfold dispatch, with_param. cbv zeta.
    destruct Hun as [(Hg & Hh & Hp & Hu & Hd)|[Hnil|Hlong]].
    - apply String.eqb_neq in Hg, Hh, Hp, Hu, Hd.
      rewrite Hg, Hh, Hp, Hu, Hd. cbn [orb andb].
      destruct (route_segments (path req)) as [|a [|b [|c [|x rest]]]];
        try reflexivity;
        repeat match goal with
               | |- context [if ?b then _ else _] => destruct b
               | |- context [match ?x with Some _ => _ | None => _ end] =>
                   destruct x
               end; reflexivity.
    - rewrite Hnil. reflexivity.
    - destruct (route_segments (path req)) as [|a [|b [|c [|x rest]]]];
        cbn in Hlong; try lia; reflexivity. }
  unfold bind. destruct (dispatch E H req body w) as [[r|e|n] w1];
    cbn [snd] in Hsame; subst w1; reflexivity.
Qed.

(** ** Startup, further *)

(** One end of startup: first what it ended in, which fixes the final
    state, then the effects it added, then what is said of them. *)
Ltac startup_leaf :=
  eexists; eexists;
  (split;
   [idtac
   |first [ right; split; [reflexivity|] | left; split; [reflexivity|] ]]);
  [ cbn [effects]; rewrite <- ?app_assoc; cbn [List.app]; reflexivity
  | cbn [listening db effects];
    first
      [ solve [repeat split; cbn; try reflexivity; try discriminate;
               try assumption; tauto]
      | split; [reflexivity|];
        first [ left; reflexivity
              | right; repeat split; cbn; try reflexivity;
                try discriminate; try assumption; tauto ] ] ].

(** X18. [startServer] never throws, and it calls [listen] only after
    everything before it succeeded.  Either it returns, with the engine
    open, the bootstrap statement executed, the port in range and
    [listen] called once, as its last step, the server listening if the
    port could be bound; or it ends in [process.exit(1)] with the
    listener not bound, and then [listen] was not called at all, or was
    the last step and refused a port out of range. *)
Theorem startup_listens_or_exits :
  forall (E : Engine) (P : Platform E) (H : Host) (p : Process E P),
    exists p' done,
      effects p' = effects p ++ done
      /\ ((startServer E P H p = (Ret tt, p')
           /\ valid_port (PORT P) = true
           /\ listening p' = port_free P (PORT P) "0.0.0.0"
           /\ db p' <> None
           /\ last done (WriteFile EmptyString) = Listen (PORT P) "0.0.0.0"
           /\ length (filter is_listen done) = 1%nat
           /\ In (OpenEngine (dataDir H)) done
           /\ In (ExecStartup sql_schema) done)
          \/ (startServer E P H p = (Exit 1, p')
              /\ listening p' = listening p
              /\ (filter is_listen done = []
                  \/ (valid_port (PORT P) = false
                      /\ db p' <> None
                      /\ last done (WriteFile EmptyString) =
                           Listen (PORT P) "0.0.0.0"
                      /\ length (filter is_listen done) = 1%nat)))).
Proof.
  intros E P H p.
  unfold startServer, remove_stale_lock, initDB, write_check, open_engine,
    startup_exec, listen, fs_write, fs_rm, log_effect, try_catch, bind,
    process_exit, throw, ret.
  cbn [files db listening effects].
  destruct (valid_port (PORT P)) eqn:Hport;
  repeat match goal with
         | |- context [if ?b then _ else _] => destruct b
         | |- context [match ?x with inl _ => _ | inr _ => _ end] =>
             destruct x; cbn [files db listening effects]
         | |- context [let (_, _) := ?x in _] =>
             destruct x as [[?|[]] ?]; cbn [files db listening effects]
         end;
    startup_leaf.
Qed.

(** X19. When every step succeeds and the port is in range, startup
    does its steps in this order: the write check (write, then delete),
    the opening of the engine on the data directory, the bootstrap
    statement, and only then the call of [listen] on all interfaces at
    the configured port; the server listens if that port could be
    bound. *)
Theorem startup_order :
  forall (E : Engine) (P : Platform E) (H : Host) (p : Process E P)
         (f1 f2 : FS P) (d d' : DB E),
    let p0 := snd (remove_stale_lock E P H p) in
    writeFileSync P (test_file P H) "ok" (files p0) = inr f1 ->
    rmSync P (test_file P H) f1 = inr f2 ->
    new_PGlite P (dataDir H) f2 = inr d ->
    db_exec E sql_schema d = (inr tt, d') ->
    valid_port (PORT P) = true ->
    startServer E P H p =
      (Ret tt,
       mkProcess P f2 (Some d') (port_free P (PORT P) "0.0.0.0")
         (effects p0 ++
          [WriteFile (test_file P H); RemoveFile (test_file P H);
           OpenEngine (dataDir H); ExecStartup sql_schema;
           Listen (PORT P) "0.0.0.0"])).
Proof.
  intros E P H p f1 f2 d d' p0 Hw Hr Ho Hx Hport.
  destruct (remove_stale_lock_returns E P H p)
    as [q [removed [Hlock _]]].
  assert (Hp0 : p0 = q) by (unfold p0; rewrite Hlock; reflexivity).
  rewrite Hp0 in Hw. rewrite Hp0. clear Hp0 p0.
  unfold startServer, try_catch at 1. unfold bind at 1. rewrite Hlock.
  unfold initDB, write_check, open_engine, startup_exec, listen, fs_write,
    fs_rm, log_effect, try_catch, bind, test_file in *.
  cbn [files db listening effects]. rewrite Hw.
  cbn [files db listening effects]. rewrite Hr.
  cbn [files db listening effects]. rewrite Ho.
  cbn [files db listening effects]. rewrite Hx.
  cbn [files db listening effects]. rewrite Hport.
  rewrite <- !app_assoc. reflexivity.
Qed.

(** [initDB] binds nothing. *)
Lemma initDB_does_not_listen :
  forall (E : Engine) (P : Platform E) (H : Host) (p p' : Process E P)
         (o : outcome unit),
    initDB E P H p = (o, p') ->
    listening p' = listening p
    /\ exists done, effects p' = effects p ++ done
                    /\ filter is_listen done = [].
Proof.
  intros E P H p p' o.
  unfold initDB, write_check, open_engine, startup_exec, fs_write, fs_rm,
    log_effect, try_catch, bind, throw.
  cbn [files db listening effects].
  repeat match goal with
         | |- context [match ?x with inl _ => _ | inr _ => _ end] =>
             destruct x; cbn [files db listening effects]
         | |- context [let (_, _) := ?x in _] =>
             destruct x as [[?|[]] ?]; cbn [files db listening effects]
         end;
    intros Hrun; inversion Hrun; subst; cbn [listening effects];
    (split; [reflexivity|]); eexists;
    (split; [rewrite <- ?app_assoc; cbn [app]; reflexivity|reflexivity]).
Qed.

(** X20. Any failure of [initDB], be it the write check, the opening of
    the engine or the bootstrap statement, ends startup in
    [process.exit(1)] at the state the failure left, with the listener
    not bound. *)
Theorem initDB_failure_is_fatal :
  forall (E : Engine) (P : Platform E) (H : Host) (p p1 : Process E P)
         (e : JsError),
    initDB E P H (snd (remove_stale_lock E P H p)) = (Throw e, p1) ->
    startServer E P H p = (Exit 1, p1)
    /\ listening p1 = listening p
    /\ filter is_listen (effects p1) = filter is_listen (effects p).
Proof.
  intros E P H p p1 e Hinit.
  destruct (remove_stale_lock_returns E P H p)
    as [p0 [removed [Hlock [Heff0 [Hafter0 [_ [Hl0 _]]]]]]].
  rewrite Hlock in Hinit; cbn [snd] in Hinit.
  destruct (initDB_does_not_listen E P H p0 p1 _ Hinit)
    as [Hl1 [done [Heff1 Hnone]]].
  split; [|split].
  - unfold startServer, try_catch at 1. unfold bind at 1. rewrite Hlock.
    unfold bind at 1. unfold try_catch at 1. rewrite Hinit. reflexivity.
  - congruence.
  - rewrite Heff1, Heff0, !filter_app, Hnone, app_nil_r.
    assert (Hrem : filter is_listen removed = []).
    { clear - Hafter0. induction removed as [|x xs IH]; [reflexivity|].
      cbn in *. apply Bool.orb_false_elim in Hafter0.
      destruct Hafter0 as [Hx Hxs]. destruct x; cbn in *;
        try discriminate; auto. }
    rewrite Hrem, app_nil_r. reflexivity.
Qed.

(** X21. The removal of a stale lock is best effort.  It is attempted
    only when the lock file exists; when the removal fails the error is
    dropped and startup goes on with the file system as it was; in no
    case does it throw, open the engine or bind the listener. *)
Theorem stale_lock_cleanup_is_best_effort :
  forall (E : Engine) (P : Platform E) (H : Host) (p : Process E P),
    let lock := lock_file P H in
    exists p0,
      remove_stale_lock E P H p = (Ret tt, p0)
      /\ db p0 = db p
      /\ listening p0 = listening p
      /\ (existsSync P lock (files p) = false -> p0 = p)
      /\ (existsSync P lock (files p) = true ->
          effects p0 = effects p ++ [RemoveFile lock]
          /\ forall e, rmSync P lock (files p) = inl e -> files p0 = files p).
Proof.
  intros E P H p lock. unfold remove_stale_lock. fold (lock_file P H).
  fold lock. destruct (existsSync P lock (files p)) eqn:Hex.
  - unfold try_catch, fs_rm, log_effect. cbn [files db listening effects].
    destruct (rmSync P lock (files p)) as [e|fs'] eqn:Hrm;
      eexists; (split; [reflexivity|]); cbn;
      repeat split; try discriminate; try reflexivity.
  - exists p. repeat split; discriminate.
Qed.

(** ** Request data and statement texts *)

Lemma route_statement_user :
  forall (H : Host) (id : string) (rq : UserRequest),
    route_statement H (OneUser id rq) = user_statement H id rq.
Proof.
  intros H id rq. destruct rq as [|body|]; try reflexivity.
  cbn [route_statement user_statement].
  destruct (userUpdateSchema H body) as [[name email]|]; [|reflexivity].
  unfold build_set, push_if_present.
  destruct (truthy name), (truthy email); reflexivity.
Qed.

(** X22. On the schema route, the create-user route and the three
    single-user routes, nothing of the request becomes SQL text.  Each
    makes at most one call, with one of seven fixed statements, and the
    request data are its bound values: the table name on the schema
    route; the validated name and e-mail, in that order, on the
    create-user route; the id as [parseInt] reads it on [GET] and
    [DELETE]; on [PUT] the supplied fields, name before e-mail, and
    then the id.  A body that fails validation, or an update that
    supplies neither field, makes no call. *)
Theorem request_data_is_bound_not_spliced :
  forall (E : Engine) (H : Host) (r : DataRoute) (w : World E),
    calls (snd (data_route E H r w)) =
      calls w ++ issued_for (route_statement H r)
    /\ forall sql params,
         route_statement H r = Some (sql, params) ->
         In sql fixed_statements.
Proof.
  intros E H r w. split.
  - destruct r as [tableName|body|id rq]; cbn [data_route].
    + unfold get_table_schema, try_catch, bind, query.
      destruct (db_query E _ _ (session w)) as [[e|res] d];
        [reflexivity|].
      unfold res_json. destruct (serializes _); reflexivity.
    + unfold post_users, try_catch, bind, parse. cbn [route_statement].
      destruct (userCreateSchema H body) as [[name email]|].
      * cbn [ret]. unfold query.
        destruct (db_query E _ _ (session w)) as [[e|res] d];
          [reflexivity|].
        unfold res_json. destruct (serializes _); reflexivity.
      * cbn. now rewrite app_nil_r.
    + rewrite route_statement_user.
      destruct (user_statement H id rq) as [[sql params]|] eqn:Hstmt.
      * rewrite (user_route_resolved E H id rq w sql params Hstmt).
        destruct (db_query E sql params (session w)) as [res d].
        reflexivity.
      * rewrite (user_route_unsent E H id rq w Hstmt). cbn.
        now rewrite app_nil_r.
  - intros sql params Hstmt. unfold fixed_statements.
    destruct r as [tableName|body|id [|body'|]];
      cbn [route_statement] in Hstmt.
    + inversion Hstmt; subst. cbn; tauto.
    + destruct (userCreateSchema H body) as [[name email]|];
        inversion Hstmt; subst. cbn; tauto.
    + inversion Hstmt; subst. cbn; tauto.
    + destruct (userUpdateSchema H body') as [[name email]|];
        [|discriminate].
      destruct (truthy name), (truthy email);
        inversion Hstmt; subst; cbn; tauto.
    + inversion Hstmt; subst. cbn; tauto.
Qed.

(** X23. What the query route accepts, the transaction route accepts as
    a batch of one, with the same text and parameters; the converse
    fails, since a transaction entry may have an empty text. *)
Theorem query_body_is_a_batch_of_one :
  forall (body : jsval) (q : string) (params : jsval),
    querySchema body = Some (q, params) ->
    transactionSchema (VObj [("queries", VArr [body])]) = Some [(q, params)]
    /\ transactionSchema
         (VObj [("queries", VArr [VObj [("query", VStr EmptyString)]])])
       = Some [(EmptyString, VUndef)]
    /\ querySchema (VObj [("query", VStr EmptyString)]) = None.
Proof.
  intros body q params Hq. split; [|split; reflexivity].
  destruct body as [| |b|n|s|items|props|?|?|?]; try discriminate.
  cbn in Hq |- *.
  destruct (get_prop "query" props) as [| |b'|n'|text|items'|ps'|?|?|?];
    destruct (get_prop "params" props); try discriminate;
    (destruct (nonempty text); [|discriminate]);
    inversion Hq; subst; reflexivity.
Qed.

(** X24. A row without a [NULL] cell whose cells all have a literal is
    written as one [INSERT] line holding these literals, one per property
    of the row object in the order [Object.values] gives them, separated
    by a comma and a space.  That order is the one the row is given in;
    it is the column order unless a column has a number for a name.  The
    numbers of the row are taken among those printed in full. *)
Theorem row_without_null_is_written_as_literals :
  forall (t : string) (row : Row) (texts : list string),
    forallb representable (object_values row) = true ->
    forallb (fun v => negb (is_nullish v)) (object_values row) = true ->
    sequence_err (map literal_text (object_values row)) = inr texts ->
    insert_statement (VStr t) row = inr (insert_line t texts)
    /\ Forall2 (fun v text => literal_text v = inr text)
               (object_values row) texts.
Proof.
  intros t row texts _ Hrow Hlit. split.
  - rewrite (insert_statement_literals t row Hrow), Hlit. reflexivity.
  - clear Hrow. revert texts Hlit.
    induction (object_values row) as [|v vs IH]; intros texts Hlit.
    + cbn in Hlit. inversion Hlit. constructor.
    + cbn [map sequence_err] in Hlit.
      destruct (literal_text v) as [e|text] eqn:Hv; [discriminate|].
      destruct (sequence_err (map literal_text vs)) as [e|rest];
        [discriminate|].
      inversion Hlit; subst. constructor; [exact Hv|]. apply IH. reflexivity.
Qed.

(** ** The further properties on concrete requests *)

Lemma transaction_success_results_witness :
  post_transaction Replay.engine Replay.host sample_batch
    (Replay.world [Replay.ok []; Replay.ok [[("id", VNum 1)]];
                   Replay.ok []; Replay.ok []]) =
  (Ret (json 200
          [("success", VBool true);
           ("results",
            VArr [result_entry [[("id", VNum 1)]]; result_entry []])]),
   mkWorld Replay.engine []
     [CallExec "BEGIN";
      CallQuery sample_insert [VStr "Alice"; VStr "alice@example.com"];
      CallQuery sample_update [VStr "Bob"; VStr "bob@example.com"];
      CallExec "COMMIT"]).
Proof.
  exact (transaction_success_results Replay.engine Replay.host sample_batch
           [(sample_insert, VArr [VStr "Alice"; VStr "alice@example.com"]);
            (sample_update, VArr [VStr "Bob"; VStr "bob@example.com"])]
           (Replay.world [Replay.ok []; Replay.ok [[("id", VNum 1)]];
                          Replay.ok []; Replay.ok []])
           [mkResult [[("id", VNum 1)]] None; mkResult [] None]
           [Replay.ok [[("id", VNum 1)]]; Replay.ok []; Replay.ok []]
           [Replay.ok []] []
           eq_refl eq_refl eq_refl eq_refl).
Defined.

Lemma transaction_begin_rejected_witness :
  post_transaction Replay.engine Replay.host sample_batch
    (Replay.world [Replay.rejected "out of memory"; Replay.ok []]) =
  (Ret (failure 400 (mkError "out of memory" None)),
   mkWorld Replay.engine [] [CallExec "BEGIN"; CallExec "ROLLBACK"]).
Proof.
  exact (transaction_begin_rejected Replay.engine Replay.host sample_batch
           [(sample_insert, VArr [VStr "Alice"; VStr "alice@example.com"]);
            (sample_update, VArr [VStr "Bob"; VStr "bob@example.com"])]
           (Replay.world [Replay.rejected "out of memory"; Replay.ok []])
           (mkError "out of memory" None) [Replay.ok []] eq_refl eq_refl).
Defined.

Lemma transaction_commit_rejected_witness :
  post_transaction Replay.engine Replay.host sample_batch
    (Replay.world [Replay.ok []; Replay.ok []; Replay.ok [];
                   Replay.rejected "could not serialize access";
                   Replay.ok []]) =
  (Ret (failure 400 (mkError "could not serialize access" None)),
   mkWorld Replay.engine []
     [CallExec "BEGIN";
      CallQuery sample_insert [VStr "Alice"; VStr "alice@example.com"];
      CallQuery sample_update [VStr "Bob"; VStr "bob@example.com"];
      CallExec "COMMIT"; CallExec "ROLLBACK"]).
Proof.
  exact (proj1
    (transaction_commit_rejected Replay.engine Replay.host sample_batch
       [(sample_insert, VArr [VStr "Alice"; VStr "alice@example.com"]);
        (sample_update, VArr [VStr "Bob"; VStr "bob@example.com"])]
       [result_entry []; result_entry []]
       (Replay.world [Replay.ok []; Replay.ok []; Replay.ok [];
                      Replay.rejected "could not serialize access";
                      Replay.ok []])
       (mkWorld Replay.engine
          [Replay.ok []; Replay.ok [];
           Replay.rejected "could not serialize access"; Replay.ok []]
          [CallExec "BEGIN"])
       (mkWorld Replay.engine
          [Replay.rejected "could not serialize access"; Replay.ok []]
          [CallExec "BEGIN";
           CallQuery sample_insert [VStr "Alice"; VStr "alice@example.com"];
           CallQuery sample_update [VStr "Bob"; VStr "bob@example.com"]])
       (mkError "could not serialize access" None) [Replay.ok []]
       eq_refl eq_refl eq_refl eq_refl)).
Defined.

Lemma post_query_runs_once_witness :
  post_query Replay.engine Replay.host
    (VObj [("query", VStr "SELECT * FROM users WHERE id = $1");
           ("params", VArr [VNum 1])])
    (Replay.world [Replay.ok [[("id", VNum 1); ("name", VStr "John")]]]) =
  (Ret (json 200 [("success", VBool true);
                  ("rows", VArr [VObj [("id", VNum 1); ("name", VStr "John")]]);
                  ("rowCount", VNum 1);
                  ("fields", VUndef)]),
   mkWorld Replay.engine []
     [CallQuery "SELECT * FROM users WHERE id = $1" [VNum 1]]).
Proof.
  exact (proj1
    (post_query_runs_once Replay.engine Replay.host
       (VObj [("query", VStr "SELECT * FROM users WHERE id = $1");
              ("params", VArr [VNum 1])])
       "SELECT * FROM users WHERE id = $1" (VArr [VNum 1])
       (Replay.world [Replay.ok [[("id", VNum 1); ("name", VStr "John")]]])
       eq_refl)).
Defined.

Lemma post_import_runs_text_as_is_witness :
  post_import Replay.engine Replay.host
    (VObj [("sql", VStr "CREATE TABLE products (id SERIAL, name TEXT);")])
    (Replay.world [Replay.rejected "relation already exists"]) =
  (Ret (failure 400 (mkError "relation already exists" None)),
   mkWorld Replay.engine []
     [CallExec "CREATE TABLE products (id SERIAL, name TEXT);"]).
Proof.
  exact (proj1
    (post_import_runs_text_as_is Replay.engine Replay.host
       (VObj [("sql", VStr "CREATE TABLE products (id SERIAL, name TEXT);")])
       "CREATE TABLE products (id SERIAL, name TEXT);"
       (Replay.world [Replay.rejected "relation already exists"])
       eq_refl)).
Defined.

(** [GET /users/x]: the id is not a number and the engine rejects the
    statement. *)
Lemma user_route_rejection_status_witness :
  json 500 [("success", VBool false);
            ("error", VStr "invalid input syntax for type integer")] =
  failure 500 (mkError "invalid input syntax for type integer" None).
Proof.
  exact (user_route_rejection_status Replay.engine Replay.host "x" GetUser
           (Replay.world [Replay.rejected "invalid input syntax for type integer"])
           (mkWorld Replay.engine []
              [CallQuery "SELECT * FROM users WHERE id = $1" [VUndef]])
           (json 500 [("success", VBool false);
                      ("error", VStr "invalid input syntax for type integer")])
           "SELECT * FROM users WHERE id = $1" [VUndef]
           (mkError "invalid input syntax for type integer" None) []
           eq_refl eq_refl eq_refl).
Defined.

(** [DELETE /users/1] on a session that returns the deleted row. *)
Lemma user_route_found_witness :
  user_route Replay.engine Replay.host "1" DeleteUser
    (Replay.world [Replay.ok [[("id", VNum 1); ("name", VStr "John")]]]) =
  (Ret (json 200 [("success", VBool true);
                  ("message", VStr "User deleted");
                  ("user", VObj [("id", VNum 1); ("name", VStr "John")])]),
   mkWorld Replay.engine []
     [CallQuery "DELETE FROM users WHERE id = $1 RETURNING *" [VNum 1]]).
Proof.
  exact (user_route_found Replay.engine Replay.host "1" DeleteUser
           (Replay.world [Replay.ok [[("id", VNum 1); ("name", VStr "John")]]])
           "DELETE FROM users WHERE id = $1 RETURNING *" [VNum 1]
           (mkResult [[("id", VNum 1); ("name", VStr "John")]] None)
           [("id", VNum 1); ("name", VStr "John")] [] []
           eq_refl eq_refl eq_refl).
Defined.

(** The create-user body of the README on a session where the e-mail is
    already taken. *)
Lemma post_users_inserts_once_witness :
  post_users Replay.engine Replay.host
    (VObj [("name", VStr "John Doe"); ("email", VStr "john@example.com")])
    (Replay.world [Replay.rejected "duplicate key value"]) =
  (Ret (failure 400 (mkError "duplicate key value" None)),
   mkWorld Replay.engine []
     [CallQuery "INSERT INTO users (name, email) VALUES ($1, $2) RETURNING *"
        [VStr "John Doe"; VStr "john@example.com"]]).
Proof.
  exact (proj1
    (post_users_inserts_once Replay.engine Replay.host
       (VObj [("name", VStr "John Doe"); ("email", VStr "john@example.com")])
       "John Doe" "john@example.com"
       (Replay.world [Replay.rejected "duplicate key value"]) eq_refl)).
Defined.

(** A table [notes] with two rows. *)
Lemma export_table_layout_witness :
  export_table Replay.engine [("tablename", VStr "notes")] "-- dump"
    (Replay.world
       [Replay.ok [[("create_stmt", VStr "CREATE TABLE notes (id integer);")]];
        Replay.ok [[("id", VNum 1)]; [("id", VNum 2)]]]) =
  (Ret ("-- dump" ++ "CREATE TABLE notes (id integer);" ++ nl ++ nl
        ++ "INSERT INTO notes VALUES (1);" ++ nl
        ++ "INSERT INTO notes VALUES (2);" ++ nl ++ nl)%string,
   mkWorld Replay.engine []
     [CallQuery sql_export_create [VStr "notes"];
      CallQuery "SELECT * FROM notes" []]).
Proof.
  refine (export_table_layout Replay.engine "notes"
           [("tablename", VStr "notes")] "-- dump"
           (Replay.world
              [Replay.ok
                 [[("create_stmt", VStr "CREATE TABLE notes (id integer);")]];
               Replay.ok [[("id", VNum 1)]; [("id", VNum 2)]]])
           (mkResult
              [[("create_stmt", VStr "CREATE TABLE notes (id integer);")]] None)
           (mkResult [[("id", VNum 1)]; [("id", VNum 2)]] None)
           [Replay.ok [[("id", VNum 1)]; [("id", VNum 2)]]] []
           "CREATE TABLE notes (id integer);"
           [("INSERT INTO notes VALUES (1);" ++ nl)%string;
            ("INSERT INTO notes VALUES (2);" ++ nl)%string]
           eq_refl eq_refl eq_refl eq_refl _).
  repeat constructor.
Defined.

(** A table [t] the catalog statement returns nothing for, listed after
    the table [notes] and holding one row. *)
Lemma export_writes_undefined_for_missing_create_witness :
  get_export Replay.engine Replay.host
    (Replay.world
       [Replay.ok [[("tablename", VStr "notes")]; [("tablename", VStr "t")]];
        Replay.ok [[("create_stmt", VStr "CREATE TABLE notes (id integer);")]];
        Replay.ok [];
        Replay.ok []; Replay.ok [[("a", VNum 1)]]]) =
  (Ret (sql_dump ("-- PGlite Database Export" ++ nl
                  ++ "-- Generated: 2025-01-15T10:00:00.000Z" ++ nl ++ nl
                  ++ "CREATE TABLE notes (id integer);" ++ nl ++ nl
                  ++ "undefined" ++ nl ++ nl
                  ++ "INSERT INTO t VALUES (1);" ++ nl ++ nl)%string),
   mkWorld Replay.engine []
     [CallQuery sql_export_tables [];
      CallQuery sql_export_create [VStr "notes"];
      CallQuery "SELECT * FROM notes" [];
      CallQuery sql_export_create [VStr "t"];
      CallQuery "SELECT * FROM t" []]).
Proof.
  refine (proj1
    (export_writes_undefined_for_missing_create Replay.engine Replay.host
       (Replay.world
          [Replay.ok [[("tablename", VStr "notes")]; [("tablename", VStr "t")]];
           Replay.ok [[("create_stmt", VStr "CREATE TABLE notes (id integer);")]];
           Replay.ok [];
           Replay.ok []; Replay.ok [[("a", VNum 1)]]])
       (mkResult [[("tablename", VStr "notes")]; [("tablename", VStr "t")]] None)
       [Replay.ok [[("create_stmt", VStr "CREATE TABLE notes (id integer);")]];
        Replay.ok [];
        Replay.ok []; Replay.ok [[("a", VNum 1)]]]
       [[("tablename", VStr "notes")]] [] [("tablename", VStr "t")] "t"
       ("-- PGlite Database Export" ++ nl
        ++ "-- Generated: 2025-01-15T10:00:00.000Z" ++ nl ++ nl
        ++ "CREATE TABLE notes (id integer);" ++ nl ++ nl)%string
       (mkWorld Replay.engine [Replay.ok []; Replay.ok [[("a", VNum 1)]]]
          [CallQuery sql_export_tables [];
           CallQuery sql_export_create [VStr "notes"];
           CallQuery "SELECT * FROM notes" []])
       (mkResult [] None) (mkResult [[("a", VNum 1)]] None)
       [Replay.ok [[("a", VNum 1)]]] []
       [("INSERT INTO t VALUES (1);" ++ nl)%string]
       _ _
       eq_refl eq_refl eq_refl eq_refl eq_refl eq_refl eq_refl _ eq_refl)).
  repeat constructor.
Defined.

(** [PATCH /users/1] with a body. *)
Lemma unrouted_request_leaves_session_witness :
  snd (app Replay.engine Replay.host
         (mkRequest "PATCH" ["users"; "1"]%string
            (Some (mkPayload Utf true (Some 20) 20
                     (Some (VObj [("name", VStr "Jane Doe")])))))
         (Replay.world [Replay.ok []])) =
  Replay.world [Replay.ok []].
Proof.
  apply unrouted_request_leaves_session. left.
  repeat split; discriminate.
Defined.

(** A start on a writable directory that holds a stale lock. *)
Lemma startup_order_witness :
  startServer Replay.engine Disk.writable Replay.host Disk.stale_start =
  (Ret tt,
   mkProcess Disk.writable [] (Some []) true
     [RemoveFile "/app/data/pglite_db/postmaster.pid";
      WriteFile "/app/data/pglite_db/.write_test";
      RemoveFile "/app/data/pglite_db/.write_test";
      OpenEngine "/app/data/pglite_db";
      ExecStartup sql_schema;
      Listen 3000 "0.0.0.0"]).
Proof.
  exact (startup_order Replay.engine Disk.writable Replay.host
           Disk.stale_start ["/app/data/pglite_db/.write_test"%string] []
           [Replay.ok []] [] eq_refl eq_refl eq_refl eq_refl eq_refl).
Defined.

(** A start under an engine that fails to open. *)
Lemma initDB_failure_is_fatal_witness :
  startServer Replay.engine Disk.no_engine Replay.host Disk.empty_start =
  (Exit 1,
   mkProcess Disk.no_engine [] None false
     [WriteFile "/app/data/pglite_db/.write_test";
      RemoveFile "/app/data/pglite_db/.write_test";
      OpenEngine "/app/data/pglite_db"]).
Proof.
  exact (proj1
    (initDB_failure_is_fatal Replay.engine Disk.no_engine Replay.host
       Disk.empty_start
       (mkProcess Disk.no_engine [] None false
          [WriteFile "/app/data/pglite_db/.write_test";
           RemoveFile "/app/data/pglite_db/.write_test";
           OpenEngine "/app/data/pglite_db"])
       Disk.corrupt eq_refl)).
Defined.

Lemma query_body_is_a_batch_of_one_witness :
  transactionSchema
    (VObj [("queries",
            VArr [VObj [("query", VStr "SELECT * FROM users WHERE id = $1");
                        ("params", VArr [VNum 1])]])])
  = Some [("SELECT * FROM users WHERE id = $1"%string, VArr [VNum 1])].
Proof.
  exact (proj1
    (query_body_is_a_batch_of_one
       (VObj [("query", VStr "SELECT * FROM users WHERE id = $1");
              ("params", VArr [VNum 1])])
       "SELECT * FROM users WHERE id = $1" (VArr [VNum 1]) eq_refl)).
Defined.

Lemma row_without_null_is_written_as_literals_witness :
  insert_statement (VStr "users")
    [("id", VNum 1); ("name", VStr "O'Brien"); ("active", VBool true)]
  = inr ("INSERT INTO users VALUES (1, 'O''Brien', true);" ++ nl)%string.
Proof.
  exact (proj1
    (row_without_null_is_written_as_literals "users"
       [("id", VNum 1); ("name", VStr "O'Brien"); ("active", VBool true)]
       ["1"; "'O''Brien'"; "true"]%string eq_refl eq_refl eq_refl)).
Defined.
